(** * Ess9ini smart-farm backend: sensing, recommendation and irrigation core

  A shallow embedding of the parts of the backend that carry the
  behaviour of the irrigation core:

  - [Helpers.convertMoistureToPercentage]   (utils/helpers.js)
  - the [pre('save')] hooks of the SensorReading model
  - [AiService.generateIrrigationRecommendation]   (services/aiService.js)
  - the IrrigationEvent model (schema bounds, hooks, instance methods)
  - the irrigation request handlers [startIrrigation], [stopIrrigation]
    and [scheduleIrrigation], and [getIrrigationRecommendations]
  - [predictIrrigationSchedule] and [analyzeCropHealth]
    (services/aiService.js)
  - [analyzeWeatherForIrrigation]   (services/weatherService.js)
  - the zone hook and the zone methods of the Farm model
  - the phone, time-difference, pagination and retry helpers
    (utils/helpers.js).

  JavaScript numbers are modelled by exact rationals ([Q]); the values
  [NaN] and [Infinity] are made explicit where the code can produce them
  (a division by the planned volume).  Dates are milliseconds in [Z]. *)

From Stdlib Require Import ZArith QArith Qround Qminmax List String Bool Lia Lqa.
Import ListNotations.

Local Open Scope Z_scope.

(** ** JavaScript number helpers *)

Module JS.

Local Open Scope Q_scope.

(** [a < b] on numbers. *)
Definition ltb (a b : Q) : bool := negb (Qle_bool b a).
(** [a > b]. *)
Definition gtb (a b : Q) : bool := ltb b a.
(** [a <= b] and [a >= b]. *)
Definition leb (a b : Q) : bool := Qle_bool a b.
Definition geb (a b : Q) : bool := Qle_bool b a.

(** [Math.round]: the nearest integer, halves rounded up. *)
Definition round (x : Q) : Z := Qfloor (x + (1 # 2)).

Definition max (a b : Q) : Q := if Qle_bool a b then b else a.
Definition min (a b : Q) : Q := if Qle_bool a b then a else b.

(** Truthiness of a possibly missing number: [undefined] and [0] are falsy. *)
Definition truthy (x : option Q) : bool :=
  match x with
  | Some q => negb (Qeq_bool q 0)
  | None => false
  end.

(** [x || d] on a possibly missing number. *)
Definition or_default (x : option Q) (d : Q) : Q :=
  match x with
  | Some q => if Qeq_bool q 0 then d else q
  | None => d
  end.

(** A number that may also be [Infinity], [-Infinity] or [NaN]: the results
    of a division. *)
Inductive num := Fin (q : Q) | PosInf | NegInf | NaN.

(** [a / b] on finite numbers. *)
Definition div (a b : Q) : num :=
  if Qeq_bool b 0 then
    if Qeq_bool a 0 then NaN
    else if ltb 0 a then PosInf else NegInf
  else Fin (a / b).

(** [x * k] for a finite positive [k]. *)
Definition scale (x : num) (k : Q) : num :=
  match x with
  | Fin q => Fin (q * k)
  | other => other
  end.

(** [Math.round] on such a number. *)
Definition roundNum (x : num) : num :=
  match x with
  | Fin q => Fin (inject_Z (round q))
  | other => other
  end.

(** [lo <= x && x <= hi], as the schema's [min] and [max] validators decide
    it; [NaN] is not a valid Number at all. *)
Definition numWithin (lo hi : Q) (x : num) : bool :=
  match x with
  | Fin q => leb lo q && leb q hi
  | _ => false
  end.


End JS.

(** ** utils/helpers.js *)

Module Helpers.

Local Open Scope Q_scope.

(** [convertMoistureToPercentage(rawValue, dryValue, wetValue)]. *)
Definition convertMoistureToPercentage (rawValue dryValue wetValue : Q) : Z :=
  if JS.leb rawValue wetValue then 100%Z
  else if JS.geb rawValue dryValue then 0%Z
  else
    let percentage := ((dryValue - rawValue) / (dryValue - wetValue)) * 100 in
    JS.round (JS.max 0 (JS.min 100 percentage)).


End Helpers.

(** ** models/SensorReading.js *)

Module SensorReading.

Local Open Scope Q_scope.

Inductive Quality := excellent | good | fair | poor.

Inductive AlertType :=
  low_moisture | high_moisture | low_battery | sensor_error | calibration_needed.

Inductive Severity := critical | warning | info.

(** The interpolated alert messages. *)
Inductive Message :=
| CriticalMoistureLevel (moisture : Q)   (* Critical moisture level: m% *)
| HighMoistureLevel (moisture : Q)       (* High moisture level: m% *)
| LowBattery (battery : Q)               (* Low battery: b% *)
| InvalidMoistureReading                 (* Invalid moisture reading detected *)
| CalibrationOverdue.                    (* Sensor calibration is overdue *)

Record Alert := {
  alert_type : AlertType;
  severity : Severity;
  message : Message;
  acknowledged : bool          (* schema default: false *)
}.

(** The [readings] sub-document.  Moisture and battery are required; the
    other values may be missing. *)
Record Readings := {
  moistureLevel : Q;
  temperature : option Q;
  humidity : option Q;
  batteryLevel : Q;
  signalStrength : option Q
}.

Record Doc := {
  sensorId : nat;
  farmId : nat;
  readings : Readings;
  timestamp : Z;
  quality : Quality;           (* schema default: good *)
  alerts : list Alert
}.

(** The fields of the Sensor model read by the alert hook. *)
Record Sensor := {
  sensor_id : nat;
  moistureThreshold_enabled : bool;
  moistureThreshold_low : Q;
  moistureThreshold_high : Q;
  lowBattery_enabled : bool;
  lowBattery_threshold : Q;
  calibration_lastCalibrated : Z
}.

Record Db := {
  sensors : list Sensor;
  collection : list Doc
}.

Definition AlertType_eqb (a b : AlertType) : bool :=
  match a, b with
  | low_moisture, low_moisture
  | high_moisture, high_moisture
  | low_battery, low_battery
  | sensor_error, sensor_error
  | calibration_needed, calibration_needed => true
  | _, _ => false
  end.

(** Schema bounds of the [readings] paths. *)
Definition within (lo hi : Q) (x : Q) : bool := JS.leb lo x && JS.leb x hi.

Definition within_opt (lo hi : Q) (x : option Q) : bool :=
  match x with
  | Some q => within lo hi q
  | None => true
  end.

Definition validate (r : Readings) : bool :=
  within 0 100 (moistureLevel r)
  && within_opt (-50) 80 (temperature r)
  && within_opt 0 100 (humidity r)
  && within 0 100 (batteryLevel r)
  && within_opt (-120) 0 (signalStrength r).

(** First [pre('save')] hook: the quality score. *)
Definition qualityScore (r : Readings) : Z :=
  let qualityScore := 100%Z in
  let qualityScore :=
    match signalStrength r with
    | Some s =>
        if JS.truthy (Some s) then
          if JS.ltb s (-80) then (qualityScore - 20)%Z
          else if JS.ltb s (-70) then (qualityScore - 10)%Z
          else qualityScore
        else qualityScore
    | None => qualityScore
    end in
  let qualityScore :=
    if JS.ltb (batteryLevel r) 20 then (qualityScore - 15)%Z
    else if JS.ltb (batteryLevel r) 40 then (qualityScore - 5)%Z
    else qualityScore in
  let qualityScore :=
    if negb (JS.truthy (temperature r)) then (qualityScore - 5)%Z
    else qualityScore in
  let qualityScore :=
    if negb (JS.truthy (humidity r)) then (qualityScore - 5)%Z
    else qualityScore in
  qualityScore.

Definition qualityOfScore (qualityScore : Z) : Quality :=
  if (90 <=? qualityScore)%Z then excellent
  else if (75 <=? qualityScore)%Z then good
  else if (60 <=? qualityScore)%Z then fair
  else poor.

Definition preSaveQuality (d : Doc) : Doc :=
  {| sensorId := sensorId d; farmId := farmId d; readings := readings d;
     timestamp := timestamp d;
     quality := qualityOfScore (qualityScore (readings d));
     alerts := alerts d |}.

(** The score and the bands as the specification words them: a deduction
    of 5 for each of temperature and humidity that is missing. *)
Definition qualityScore_spec (r : Readings) : Z :=
  (100
   - match signalStrength r with
     | Some s => if JS.ltb s (-80) then 20 else if JS.ltb s (-70) then 10 else 0
     | None => 0
     end
   - (if JS.ltb (batteryLevel r) 20 then 15
      else if JS.ltb (batteryLevel r) 40 then 5 else 0)
   - match temperature r with None => 5 | Some _ => 0 end
   - match humidity r with None => 5 | Some _ => 0 end)%Z.

Definition qualityBand_spec (score : Z) : Quality :=
  if (90 <=? score)%Z then excellent
  else if (75 <=? score)%Z then good
  else if (60 <=? score)%Z then fair
  else poor.

Definition mkAlert (t : AlertType) (s : Severity) (m : Message) : Alert :=
  {| alert_type := t; severity := s; message := m; acknowledged := false |}.

Definition msPerDay : Q := 1000 * 60 * 60 * 24.

(** Second [pre('save')] hook, after the sensor was found: the alert list
    is rebuilt from empty. *)
Definition generateAlerts (sensor : Sensor) (r : Readings) (now : Z) : list Alert :=
  let alerts : list Alert := [] in
  let alerts :=
    if moistureThreshold_enabled sensor then
      if JS.leb (moistureLevel r) (moistureThreshold_low sensor) then
        alerts ++ [mkAlert low_moisture critical
                     (CriticalMoistureLevel (moistureLevel r))]
      else if JS.geb (moistureLevel r) (moistureThreshold_high sensor) then
        alerts ++ [mkAlert high_moisture warning
                     (HighMoistureLevel (moistureLevel r))]
      else alerts
    else alerts in
  let alerts :=
    if lowBattery_enabled sensor then
      if JS.leb (batteryLevel r) (lowBattery_threshold sensor) then
        alerts ++ [mkAlert low_battery
                     (if JS.leb (batteryLevel r) 10 then critical else warning)
                     (LowBattery (batteryLevel r))]
      else alerts
    else alerts in
  let alerts :=
    if JS.ltb (moistureLevel r) 0 || JS.gtb (moistureLevel r) 100 then
      alerts ++ [mkAlert sensor_error critical InvalidMoistureReading]
    else alerts in
  let daysSinceCalibration :=
    inject_Z (now - calibration_lastCalibrated sensor) / msPerDay in
  let alerts :=
    if JS.gtb daysSinceCalibration 180 then
      alerts ++ [mkAlert calibration_needed info CalibrationOverdue]
    else alerts in
  alerts.

Definition findSensorById (ss : list Sensor) (id : nat) : option Sensor :=
  find (fun s => Nat.eqb (sensor_id s) id) ss.

Definition preSaveAlerts (ss : list Sensor) (now : Z) (d : Doc) : Doc :=
  match findSensorById ss (sensorId d) with
  | None => d
  | Some sensor =>
      {| sensorId := sensorId d; farmId := farmId d; readings := readings d;
         timestamp := timestamp d; quality := quality d;
         alerts := generateAlerts sensor (readings d) now |}
  end.

(** [doc.save()] for a new reading: validation, then the two hooks in the
    order they are registered, then the insertion.  A failed validation
    stores nothing.  The [post('save')] hook writes only to the statistics
    of the Sensor document and is left out. *)
Definition save (db : Db) (now : Z) (d : Doc) : option Doc * Db :=
  if validate (readings d) then
    let d := preSaveQuality d in
    let d := preSaveAlerts (sensors db) now d in
    (Some d, {| sensors := sensors db; collection := collection db ++ [d] |})
  else (None, db).

(** [SensorReading.create({ sensorId, farmId, readings, timestamp })]:
    defaults are applied before the save. *)
Definition create (db : Db) (now : Z) (sid fid : nat) (r : Readings)
    (ts : option Z) : option Doc * Db :=
  save db now
    {| sensorId := sid; farmId := fid; readings := r;
       timestamp := match ts with Some t => t | None => now end;
       quality := good; alerts := [] |}.

(** The unacknowledged alerts of one kind held for one device. *)
Definition pendingAlerts (db : Db) (sid : nat) (t : AlertType) : list Alert :=
  flat_map
    (fun d =>
       if Nat.eqb (sensorId d) sid then
         filter (fun a => AlertType_eqb (alert_type a) t && negb (acknowledged a))
           (alerts d)
       else [])
    (collection db).

(** The alerts of one kind that a saved reading carries. *)
Definition raisedOf (t : AlertType) (d : Doc) : list Alert :=
  filter (fun a => AlertType_eqb (alert_type a) t) (alerts d).

(** *** Virtuals *)

Definition moistureStatus (d : Doc) : string :=
  let moisture := moistureLevel (readings d) in
  if JS.leb moisture 30 then "critical"
  else if JS.leb moisture 60 then "low"
  else if JS.leb moisture 80 then "optimal"
  else "high".

Definition batteryStatus (d : Doc) : string :=
  let battery := batteryLevel (readings d) in
  if JS.leb battery 20 then "critical"
  else if JS.leb battery 40 then "low"
  else if JS.leb battery 70 then "good"
  else "excellent".

Definition signalQuality (d : Doc) : string :=
  match signalStrength (readings d) with
  | Some signal =>
      if negb (JS.truthy (Some signal)) then "unknown"
      else if JS.geb signal (-50) then "excellent"
      else if JS.geb signal (-60) then "good"
      else if JS.geb signal (-70) then "fair"
      else "poor"
  | None => "unknown"
  end.

(** Does the reading carry an alert of this type? *)
Definition hasAlert (t : AlertType) (d : Doc) : bool :=
  existsb (fun a => AlertType_eqb (alert_type a) t) (alerts d).

End SensorReading.

(** ** services/aiService.js *)

Module AiService.

Local Open Scope Q_scope.

Inductive Action :=
  none | irrigate_now | irrigate_soon | schedule_irrigation | postpone.

Definition Action_name (a : Action) : string :=
  match a with
  | none => "none"
  | irrigate_now => "irrigate_now"
  | irrigate_soon => "irrigate_soon"
  | schedule_irrigation => "schedule_irrigation"
  | postpone => "postpone"
  end.

(** [s.includes(sub)]. *)
Definition includes (s sub : string) : bool :=
  match String.index 0 sub s with
  | Some _ => true
  | None => false
  end.

Inductive Priority := low | medium | high | critical.

Inductive Timing := early_morning.

(** The entries pushed on [recommendation.reasoning]. *)
Inductive Reason :=
| CriticalMoisture (rounded : Z) (target : Q)
| LowMoisture (rounded : Z) (target : Q)
| ModerateMoisture (rounded : Z) (target : Q)
| HighHumidity
| RainExpected (rainfall : Q)
| HighTemperature.

Record Recommendation := {
  action : Action;
  confidence : Q;
  reasoning : list Reason;
  timing : option Timing;
  duration : option Q;
  zones : list Q;
  waterAmount : option Q;
  priority : Priority
}.

(** One element of [sensorData]. *)
Record SensorData := {
  moistureLevel : Q;
  quality : SensorReading.Quality;
  zone : option Q
}.

Record Current := {
  humidity : Q;
  temperature : Q
}.

Record ForecastDay := {
  rainfall : Q
}.

Record WeatherData := {
  current : Current;
  forecast : option (list ForecastDay)
}.

Record FarmSettings := {
  targetMoisture : option Q
}.

Inductive Result :=
| Success (data : Recommendation)
| Failure (error : string).

Definition set_action (a : Action) (r : Recommendation) : Recommendation :=
  {| action := a; confidence := confidence r; reasoning := reasoning r;
     timing := timing r; duration := duration r; zones := zones r;
     waterAmount := waterAmount r; priority := priority r |}.

Definition set_confidence (c : Q) (r : Recommendation) : Recommendation :=
  {| action := action r; confidence := c; reasoning := reasoning r;
     timing := timing r; duration := duration r; zones := zones r;
     waterAmount := waterAmount r; priority := priority r |}.

Definition push_reasoning (x : Reason) (r : Recommendation) : Recommendation :=
  {| action := action r; confidence := confidence r;
     reasoning := reasoning r ++ [x];
     timing := timing r; duration := duration r; zones := zones r;
     waterAmount := waterAmount r; priority := priority r |}.

Definition set_timing (t : Timing) (r : Recommendation) : Recommendation :=
  {| action := action r; confidence := confidence r; reasoning := reasoning r;
     timing := Some t; duration := duration r; zones := zones r;
     waterAmount := waterAmount r; priority := priority r |}.

Definition set_duration (d : Q) (r : Recommendation) : Recommendation :=
  {| action := action r; confidence := confidence r; reasoning := reasoning r;
     timing := timing r; duration := Some d; zones := zones r;
     waterAmount := waterAmount r; priority := priority r |}.

Definition set_zones (z : list Q) (r : Recommendation) : Recommendation :=
  {| action := action r; confidence := confidence r; reasoning := reasoning r;
     timing := timing r; duration := duration r; zones := z;
     waterAmount := waterAmount r; priority := priority r |}.

Definition set_waterAmount (w : Q) (r : Recommendation) : Recommendation :=
  {| action := action r; confidence := confidence r; reasoning := reasoning r;
     timing := timing r; duration := duration r; zones := zones r;
     waterAmount := Some w; priority := priority r |}.

Definition set_priority (p : Priority) (r : Recommendation) : Recommendation :=
  {| action := action r; confidence := confidence r; reasoning := reasoning r;
     timing := timing r; duration := duration r; zones := zones r;
     waterAmount := waterAmount r; priority := p |}.

(** The object the function starts from. *)
Definition initial : Recommendation :=
  {| action := none; confidence := 0; reasoning := []; timing := None;
     duration := None; zones := []; waterAmount := None; priority := low |}.

Definition size (sensorData : list SensorData) : Q :=
  inject_Z (Z.of_nat (List.length sensorData)).

(** [sensorData.reduce((sum, reading) => sum + reading.moistureLevel, 0)
     / sensorData.length] *)
Definition avgMoisture (sensorData : list SensorData) : Q :=
  fold_left (fun sum reading => sum + moistureLevel reading) sensorData 0
  / size sensorData.

(** [farmSettings.targetMoisture || 80] *)
Definition targetOf (farmSettings : FarmSettings) : Q :=
  JS.or_default (targetMoisture farmSettings) 80.

(** "Analyze moisture levels": the band of the average. *)
Definition analyzeMoisture (avgMoisture targetMoisture : Q)
    (recommendation : Recommendation) : Recommendation :=
  if JS.ltb avgMoisture (targetMoisture * 0.4) then
    push_reasoning (CriticalMoisture (JS.round avgMoisture) targetMoisture)
      (set_priority critical
         (set_confidence 0.9 (set_action irrigate_now recommendation)))
  else if JS.ltb avgMoisture (targetMoisture * 0.6) then
    push_reasoning (LowMoisture (JS.round avgMoisture) targetMoisture)
      (set_priority high
         (set_confidence 0.7 (set_action irrigate_soon recommendation)))
  else if JS.ltb avgMoisture (targetMoisture * 0.8) then
    push_reasoning (ModerateMoisture (JS.round avgMoisture) targetMoisture)
      (set_priority medium
         (set_confidence 0.5 (set_action schedule_irrigation recommendation)))
  else recommendation.

(** [weatherData.forecast && weatherData.forecast[0]?.rainfall > 5] *)
Definition rainExpected (w : WeatherData) : option Q :=
  match forecast w with
  | Some (day :: _) => if JS.gtb (rainfall day) 5 then Some (rainfall day) else None
  | _ => None
  end.

(** "Analyze weather conditions": skipped when [weatherData] is missing. *)
Definition analyzeWeather (weatherData : option WeatherData)
    (recommendation : Recommendation) : Recommendation :=
  match weatherData with
  | Some w =>
      let recommendation :=
        if JS.gtb (humidity (current w)) 85 then
          push_reasoning HighHumidity
            (set_confidence (confidence recommendation - 0.2) recommendation)
        else recommendation in
      let recommendation :=
        match rainExpected w with
        | Some mm =>
            push_reasoning (RainExpected mm)
              (set_confidence 0.8 (set_action postpone recommendation))
        | None => recommendation
        end in
      let recommendation :=
        if JS.gtb (temperature (current w)) 35 then
          push_reasoning HighTemperature (set_timing early_morning recommendation)
        else recommendation in
      recommendation
  | None => recommendation
  end.

(** "Calculate irrigation parameters". *)
Definition irrigationParameters (sensorData : list SensorData)
    (avgMoisture targetMoisture : Q) (recommendation : Recommendation)
    : Recommendation :=
  if includes (Action_name (action recommendation)) "irrigate" then
    let moistureDeficit := JS.max 0 (targetMoisture - avgMoisture) in
    let d := JS.min 60 (JS.max 10 (moistureDeficit * 0.5)) in
    let recommendation := set_duration d recommendation in
    let recommendation := set_waterAmount (d * 5) recommendation in
    let zs :=
      map (fun reading => JS.or_default (zone reading) 1)
        (filter (fun reading => JS.ltb (moistureLevel reading) (targetMoisture * 0.7))
           sensorData) in
    if Nat.eqb (List.length zs) 0 then set_zones [1] recommendation
    else set_zones zs recommendation
  else recommendation.

Definition isGood (q : SensorReading.Quality) : bool :=
  match q with
  | SensorReading.good => true
  | _ => false
  end.

(** [sensorData.filter(reading => reading.quality === 'good').length
     / sensorData.length] *)
Definition dataQuality (sensorData : list SensorData) : Q :=
  size (filter (fun reading => isGood (quality reading)) sensorData)
  / size sensorData.

(** The recommendation before the data-quality weighting. *)
Definition unweighted (sensorData : list SensorData)
    (weatherData : option WeatherData) (farmSettings : FarmSettings)
    : Recommendation :=
  let avg := avgMoisture sensorData in
  let targetMoisture := targetOf farmSettings in
  irrigationParameters sensorData avg targetMoisture
    (analyzeWeather weatherData
       (analyzeMoisture avg targetMoisture initial)).

(** [generateIrrigationRecommendation(sensorData, weatherData, farmSettings)].

    For an empty [sensorData] the code divides 0 by 0 and carries [NaN]
    through the comparisons and into the confidence.  Numbers are rationals
    here, so that input is outside the model: the result is [None].  On
    every other input of these types no statement of the [try] block can
    throw, and the function returns [{ success: true, data }]. *)
Definition generateIrrigationRecommendation (sensorData : list SensorData)
    (weatherData : option WeatherData) (farmSettings : FarmSettings)
    : option Result :=
  match sensorData with
  | [] => None
  | _ :: _ =>
      let recommendation := unweighted sensorData weatherData farmSettings in
      let recommendation :=
        set_confidence (confidence recommendation * dataQuality sensorData)
          recommendation in
      Some (Success recommendation)
  end.

(** The aggregate as the specification words it: poor readings are left
    out of the mean when some reading is not poor. *)
Definition isPoor (q : SensorReading.Quality) : bool :=
  match q with
  | SensorReading.poor => true
  | _ => false
  end.

Definition mean (xs : list Q) : Q :=
  fold_left Qplus xs 0 / inject_Z (Z.of_nat (List.length xs)).

Definition aggregate_spec (sensorData : list SensorData) : Q :=
  let kept := filter (fun reading => negb (isPoor (quality reading))) sensorData in
  match kept with
  | [] => mean (map moistureLevel sensorData)
  | _ :: _ => mean (map moistureLevel kept)
  end.




(** What the function reads of the readings besides their quality. *)
Definition measurements (sensorData : list SensorData) : list (Q * option Q) :=
  map (fun reading => (moistureLevel reading, zone reading)) sensorData.


(** Current humidity above 85%. *)
Definition humid (weatherData : option WeatherData) : bool :=
  match weatherData with
  | Some w => JS.gtb (humidity (current w)) 85
  | None => false
  end.

(** A forecast that triggers none of the three weather adjustments. *)
Definition calm (w : WeatherData) : Prop :=
  JS.gtb (humidity (current w)) 85 = false
  /\ rainExpected w = None
  /\ JS.gtb (temperature (current w)) 35 = false.

End AiService.

(** ** models/IrrigationEvent.js, with the part of models/Farm.js it reads *)

Module IrrigationEvent.

Local Open Scope Q_scope.

(** [CONSTANTS.IRRIGATION_STATUS] *)
Inductive Status := pending | running | completed | failed | cancelled.

Definition Status_eqb (a b : Status) : bool :=
  match a, b with
  | pending, pending | running, running | completed, completed
  | failed, failed | cancelled, cancelled => true
  | _, _ => false
  end.

(** [Object.values(CONSTANTS.IRRIGATION_TYPES)] *)
Definition IRRIGATION_TYPES : list string := ["manual"; "scheduled"; "automatic"]%string.

Inductive TriggerReason :=
  manual | scheduled | low_moisture | ai_recommendation | weather_forecast
| crop_stage | emergency.

(** An element given for [zones]: a number, or the string ['all'] that the
    request handlers fall back to (it cannot be cast to the schema's
    Number). *)
Inductive ZoneRef := ZoneNum (n : Z) | ZoneAll.

Record MoistureIncrease := {
  mi_zone : Z;
  beforeMoisture : Q;
  afterMoisture : Q;
  increase : Q
}.

Record Doc := {
  _id : nat;
  farmId : nat;
  userId : option nat;
  type : string;
  zones : list ZoneRef;
  duration : Q;
  waterAmount_planned : option Q;
  waterAmount_actual : Q;
  schedule_startTime : option Z;
  schedule_endTime : option Z;
  schedule_actualStartTime : option Z;
  schedule_actualEndTime : option Z;
  status : Status;
  trigger_reason : option TriggerReason;
  settings_flowRate : Q;
  results_waterUsed : Q;
  results_efficiency : option JS.num;
  results_moistureIncrease : list MoistureIncrease;
  notes : option string;
  cost_water : Q;
  cost_electricity : Q;
  cost_fertilizer : Q;
  cost_total : Q
}.

(** The fields of a Farm document read here and by the request handlers. *)
Record Farm := {
  farm_id : nat;
  ownerId : nat;
  name : string;
  location_zones : list Z          (* the [id] of every zone *)
}.

(** The two collections, and the next fresh document id. *)
Record Db := {
  farms : list Farm;
  events : list Doc;
  nextId : nat
}.

Definition with_events (db : Db) (es : list Doc) : Db :=
  {| farms := farms db; events := es; nextId := nextId db |}.

Inductive Error :=
| AppError (message : string) (statusCode : Z) (code : string)
| ValidationError
| HookError (message : string)
| DocumentNotFoundError
| TypeError.

(** Operations on the store: they thread the database and may throw. *)
Definition M (A : Type) : Type := Db -> (Error + A) * Db.

Definition ret {A} (a : A) : M A := fun db => (inr a, db).

Definition throw {A} (e : Error) : M A := fun db => (inl e, db).

Definition bind {A B} (m : M A) (k : A -> M B) : M B :=
  fun db =>
    match m db with
    | (inr a, db') => k a db'
    | (inl e, db') => (inl e, db')
    end.

Notation "x <- m ;; k" := (bind m (fun x => k))
  (at level 61, m at next level, right associativity).

Definition Farm_findById (id : nat) : M (option Farm) :=
  fun db => (inr (find (fun f => Nat.eqb (farm_id f) id) (farms db)), db).

Definition findById (id : nat) : M (option Doc) :=
  fun db => (inr (find (fun e => Nat.eqb (_id e) id) (events db)), db).

(** [IrrigationEvent.findOne({ farmId, status })] *)
Definition findOne (fid : nat) (s : Status) : M (option Doc) :=
  fun db =>
    (inr (find (fun e => Nat.eqb (farmId e) fid && Status_eqb (status e) s)
            (events db)), db).

(** Field updates. *)
Definition set_status (s : Status) (d : Doc) : Doc :=
  {| _id := _id d; farmId := farmId d; userId := userId d; type := type d;
     zones := zones d; duration := duration d;
     waterAmount_planned := waterAmount_planned d;
     waterAmount_actual := waterAmount_actual d;
     schedule_startTime := schedule_startTime d;
     schedule_endTime := schedule_endTime d;
     schedule_actualStartTime := schedule_actualStartTime d;
     schedule_actualEndTime := schedule_actualEndTime d;
     status := s;
     trigger_reason := trigger_reason d;
     settings_flowRate := settings_flowRate d;
     results_waterUsed := results_waterUsed d;
     results_efficiency := results_efficiency d;
     results_moistureIncrease := results_moistureIncrease d;
     notes := notes d; cost_water := cost_water d;
     cost_electricity := cost_electricity d;
     cost_fertilizer := cost_fertilizer d; cost_total := cost_total d |}.

Definition set_schedule (endTime actualStartTime actualEndTime : option Z)
    (d : Doc) : Doc :=
  {| _id := _id d; farmId := farmId d; userId := userId d; type := type d;
     zones := zones d; duration := duration d;
     waterAmount_planned := waterAmount_planned d;
     waterAmount_actual := waterAmount_actual d;
     schedule_startTime := schedule_startTime d;
     schedule_endTime := endTime;
     schedule_actualStartTime := actualStartTime;
     schedule_actualEndTime := actualEndTime;
     status := status d;
     trigger_reason := trigger_reason d;
     settings_flowRate := settings_flowRate d;
     results_waterUsed := results_waterUsed d;
     results_efficiency := results_efficiency d;
     results_moistureIncrease := results_moistureIncrease d;
     notes := notes d; cost_water := cost_water d;
     cost_electricity := cost_electricity d;
     cost_fertilizer := cost_fertilizer d; cost_total := cost_total d |}.

Definition set_endTime (t : Z) (d : Doc) : Doc :=
  set_schedule (Some t) (schedule_actualStartTime d) (schedule_actualEndTime d) d.

Definition set_actualStartTime (t : Z) (d : Doc) : Doc :=
  set_schedule (schedule_endTime d) (Some t) (schedule_actualEndTime d) d.

Definition set_actualEndTime (t : Z) (d : Doc) : Doc :=
  set_schedule (schedule_endTime d) (schedule_actualStartTime d) (Some t) d.

Definition set_planned (p : Q) (d : Doc) : Doc :=
  {| _id := _id d; farmId := farmId d; userId := userId d; type := type d;
     zones := zones d; duration := duration d;
     waterAmount_planned := Some p;
     waterAmount_actual := waterAmount_actual d;
     schedule_startTime := schedule_startTime d;
     schedule_endTime := schedule_endTime d;
     schedule_actualStartTime := schedule_actualStartTime d;
     schedule_actualEndTime := schedule_actualEndTime d;
     status := status d;
     trigger_reason := trigger_reason d;
     settings_flowRate := settings_flowRate d;
     results_waterUsed := results_waterUsed d;
     results_efficiency := results_efficiency d;
     results_moistureIncrease := results_moistureIncrease d;
     notes := notes d; cost_water := cost_water d;
     cost_electricity := cost_electricity d;
     cost_fertilizer := cost_fertilizer d; cost_total := cost_total d |}.

Definition set_results (waterUsed : Q) (efficiency : option JS.num)
    (moistureIncrease : list MoistureIncrease) (d : Doc) : Doc :=
  {| _id := _id d; farmId := farmId d; userId := userId d; type := type d;
     zones := zones d; duration := duration d;
     waterAmount_planned := waterAmount_planned d;
     waterAmount_actual := waterAmount_actual d;
     schedule_startTime := schedule_startTime d;
     schedule_endTime := schedule_endTime d;
     schedule_actualStartTime := schedule_actualStartTime d;
     schedule_actualEndTime := schedule_actualEndTime d;
     status := status d;
     trigger_reason := trigger_reason d;
     settings_flowRate := settings_flowRate d;
     results_waterUsed := waterUsed;
     results_efficiency := efficiency;
     results_moistureIncrease := moistureIncrease;
     notes := notes d; cost_water := cost_water d;
     cost_electricity := cost_electricity d;
     cost_fertilizer := cost_fertilizer d; cost_total := cost_total d |}.


Definition set_cost_total (c : Q) (d : Doc) : Doc :=
  {| _id := _id d; farmId := farmId d; userId := userId d; type := type d;
     zones := zones d; duration := duration d;
     waterAmount_planned := waterAmount_planned d;
     waterAmount_actual := waterAmount_actual d;
     schedule_startTime := schedule_startTime d;
     schedule_endTime := schedule_endTime d;
     schedule_actualStartTime := schedule_actualStartTime d;
     schedule_actualEndTime := schedule_actualEndTime d;
     status := status d;
     trigger_reason := trigger_reason d;
     settings_flowRate := settings_flowRate d;
     results_waterUsed := results_waterUsed d;
     results_efficiency := results_efficiency d;
     results_moistureIncrease := results_moistureIncrease d;
     notes := notes d; cost_water := cost_water d;
     cost_electricity := cost_electricity d;
     cost_fertilizer := cost_fertilizer d; cost_total := c |}.

(** *** The schema's validators *)

Definition isSome {A} (x : option A) : bool :=
  match x with Some _ => true | None => false end.

Definition zoneValid (z : ZoneRef) : bool :=
  match z with
  | ZoneNum n => (1 <=? n)%Z       (* min: [1, 'Zone number must be positive'] *)
  | ZoneAll => false               (* not a Number *)
  end.

Definition efficiencyValid (e : option JS.num) : bool :=
  match e with
  | None => true
  | Some x => JS.numWithin 0 100 x  (* min 0, max [100, 'Efficiency cannot exceed 100%'] *)
  end.

Definition plannedValid (p : option Q) : bool :=
  match p with
  | Some q => JS.leb 0 q
  | None => false                  (* required *)
  end.

Definition notesValid (n : option string) : bool :=
  match n with
  | Some s => Nat.leb (String.length s) 1000
  | None => true
  end.

Definition schemaValid (d : Doc) : bool :=
  isSome (userId d)
  && existsb (String.eqb (type d)) IRRIGATION_TYPES
  && forallb zoneValid (zones d)
  && JS.leb 1 (duration d) && JS.leb (duration d) 480
  && plannedValid (waterAmount_planned d)
  && JS.leb 0 (waterAmount_actual d)
  && isSome (schedule_startTime d)
  && isSome (trigger_reason d)
  && JS.leb 0 (settings_flowRate d)
  && JS.leb 0 (results_waterUsed d)
  && efficiencyValid (results_efficiency d)
  && notesValid (notes d)
  && JS.leb 0 (cost_water d) && JS.leb 0 (cost_electricity d)
  && JS.leb 0 (cost_fertilizer d) && JS.leb 0 (cost_total d).

(** *** The [pre('save')] hooks *)

(** "calculate end time and water amount" *)
Definition preSaveCompute (d : Doc) : Doc :=
  let d :=
    match schedule_startTime d, schedule_endTime d with
    | Some startTime, None =>
        if JS.truthy (Some (duration d)) then
          set_endTime (startTime + Qfloor (duration d * 60 * 1000))%Z d
        else d
    | _, _ => d
    end in
  let d :=
    if negb (JS.truthy (waterAmount_planned d))
       && JS.truthy (Some (duration d))
       && JS.truthy (Some (settings_flowRate d))
    then
      set_planned
        (duration d * settings_flowRate d
         * inject_Z (Z.of_nat (List.length (zones d)))) d
    else d in
  set_cost_total
    (JS.or_default (Some (cost_water d)) 0
     + JS.or_default (Some (cost_electricity d)) 0
     + JS.or_default (Some (cost_fertilizer d)) 0) d.

Definition zoneInFarm (farmZoneIds : list Z) (z : ZoneRef) : bool :=
  match z with
  | ZoneNum n => existsb (Z.eqb n) farmZoneIds
  | ZoneAll => false
  end.

(** "validate zones" *)
Definition preSaveZones (d : Doc) : M unit :=
  farm <- Farm_findById (farmId d) ;;
  match farm with
  | None => throw (HookError "Farm not found")
  | Some farm =>
      let farmZoneIds := location_zones farm in
      let invalidZones := filter (fun z => negb (zoneInFarm farmZoneIds z)) (zones d) in
      if Nat.ltb 0 (List.length invalidZones)
      then throw (HookError "Invalid zones")
      else ret tt
  end.

(** Replace the stored document that has the id of [d]. *)
Fixpoint updateById (d : Doc) (es : list Doc) : option (list Doc) :=
  match es with
  | [] => None
  | e :: es' =>
      if Nat.eqb (_id e) (_id d) then Some (d :: es')
      else option_map (cons e) (updateById d es')
  end.

Section Persistence.

(** The validation that guards every save.  The schema's own is
    [schemaValid]; the request handlers are verified for any. *)
Variable valid : Doc -> bool.

(** [doc.save()]: validation first, then the hooks in the order they are
    registered, then the write: an insertion for a new document, an update
    by id otherwise.  Whatever fails leaves the store as it was. *)
Definition save (isNew : bool) (d : Doc) : M Doc :=
  fun db =>
    if valid d then
      let d := preSaveCompute d in
      match preSaveZones d db with
      | (inl e, _) => (inl e, db)
      | (inr _, _) =>
          if isNew then (inr d, with_events db (events db ++ [d]))
          else
            match updateById d (events db) with
            | Some es => (inr d, with_events db es)
            | None => (inl DocumentNotFoundError, db)
            end
      end
    else (inl ValidationError, db).

(** What a request handler hands to [IrrigationEvent.create]; paths that
    are not in the schema are dropped. *)
Record Input := {
  in_farmId : nat;
  in_type : string;
  in_status : Status;
  in_duration : Q;
  in_zones : list ZoneRef
}.

(** [IrrigationEvent.create(input)]: a new document with the schema
    defaults and a fresh id, then [save]. *)
Definition create (i : Input) : M Doc :=
  fun db =>
    let d :=
      {| _id := nextId db; farmId := in_farmId i; userId := None;
         type := in_type i; zones := in_zones i; duration := in_duration i;
         waterAmount_planned := None; waterAmount_actual := 0;
         schedule_startTime := None; schedule_endTime := None;
         schedule_actualStartTime := None; schedule_actualEndTime := None;
         status := in_status i; trigger_reason := None;
         settings_flowRate := 5; results_waterUsed := 0;
         results_efficiency := None; results_moistureIncrease := [];
         notes := None; cost_water := 0; cost_electricity := 0;
         cost_fertilizer := 0; cost_total := 0 |} in
    save true d
      {| farms := farms db; events := events db; nextId := S (nextId db) |}.

(** *** Instance methods; [now] is the value of [new Date()]. *)

Definition start (now : Z) (this : Doc) : M Doc :=
  let this := set_status running this in
  let this := set_actualStartTime now this in
  save false this.

Definition efficiencyOf (waterUsed : Q) (planned : option Q) : JS.num :=
  match planned with
  | Some p => JS.roundNum (JS.scale (JS.div waterUsed p) 100)
  | None => JS.NaN
  end.

(** The assignments of [complete], before [this.save()]. *)
Definition completed_doc (now : Z) (waterUsed : option Q)
    (moistureReadings : option (list MoistureIncrease)) (this : Doc) : Doc :=
  let this := set_status completed this in
  let this := set_actualEndTime now this in
  let this :=
    match waterUsed with
    | Some w =>
        if JS.truthy (Some w) then
          set_results w (Some (efficiencyOf w (waterAmount_planned this)))
            (results_moistureIncrease this) this
        else this
    | None => this
    end in
  let this :=
    match moistureReadings with
    | Some rs =>
        if Nat.ltb 0 (List.length rs) then
          set_results (results_waterUsed this) (results_efficiency this) rs this
        else this
    | None => this
    end in
  this.

Definition complete (now : Z) (waterUsed : option Q)
    (moistureReadings : option (list MoistureIncrease)) (this : Doc) : M Doc :=
  save false (completed_doc now waterUsed moistureReadings this).



End Persistence.

(** The stored runs of a farm that are running. *)
Definition runningFor (fid : nat) (db : Db) : list Doc :=
  filter (fun e => Nat.eqb (farmId e) fid && Status_eqb (status e) running)
    (events db).


(** *** Virtuals and statics *)

(** [actualDuration], in minutes. *)
Definition actualDuration (d : Doc) : option Z :=
  match schedule_actualStartTime d, schedule_actualEndTime d with
  | Some actualStartTime, Some actualEndTime =>
      Some (JS.round (inject_Z (actualEndTime - actualStartTime) / (1000 * 60)))
  | _, _ => None
  end.

(** [waterEfficiency]: the used volume as a percentage of the planned one. *)
Definition waterEfficiency (d : Doc) : option Z :=
  match waterAmount_planned d with
  | Some planned =>
      if negb (JS.truthy (Some planned))
         || negb (JS.truthy (Some (results_waterUsed d)))
      then None
      else Some (JS.round (results_waterUsed d / planned * 100))
  | None => None
  end.

(** [avgMoistureIncrease] *)
Definition avgMoistureIncrease (d : Doc) : option Z :=
  match results_moistureIncrease d with
  | [] => None
  | items =>
      let total :=
        fold_left (fun sum item => sum + JS.or_default (Some (increase item)) 0)
          items 0 in
      Some (JS.round (total / inject_Z (Z.of_nat (List.length items))))
  end.

(** [IrrigationEvent.getActive()]: the pending and the running runs. *)
Definition getActive (db : Db) : list Doc :=
  filter (fun e => Status_eqb (status e) pending || Status_eqb (status e) running)
    (events db).


End IrrigationEvent.

(** ** The irrigation request handlers (controllers) *)

Module IrrigationController.

Import IrrigationEvent.

Local Open Scope Q_scope.
Local Open Scope string_scope.

Record User := {
  user_role : string;
  user_userId : nat;
  user_farmId : option nat
}.

Record Body := {
  body_farmId : option nat;
  body_duration : option Q;
  body_zones : option (list ZoneRef);
  body_type : option string
}.

Record Request := {
  body : Body;
  params_eventId : nat;
  user : User
}.

(** The JSON answer of a successful request. *)
Record Response := {
  res_status : Z;
  res_message : string;
  res_event : Doc
}.

Definition orElse {A} (x : option A) (d : A) : A :=
  match x with Some a => a | None => d end.

(** [farmId || req.user.farmId] *)
Definition requestedFarm (req : Request) : option nat :=
  match body_farmId (body req) with
  | Some id => Some id
  | None => user_farmId (user req)
  end.

Definition Farm_findByOptId (id : option nat) : M (option Farm) :=
  match id with
  | Some id => Farm_findById id
  | None => ret None
  end.

(** [req.user.role !== 'admin' && farm.ownerId.toString() !== req.user.userId] *)
Definition notAuthorized (req : Request) (farm : Farm) : bool :=
  negb (String.eqb (user_role (user req)) "admin")
  && negb (Nat.eqb (ownerId farm) (user_userId (user req))).

Section Handlers.

Variable valid : Doc -> bool.

Definition startIrrigation (req : Request) : M Response :=
  let type := orElse (body_type (body req)) "manual" in
  farm <- Farm_findByOptId (requestedFarm req) ;;
  match farm with
  | None => throw (AppError "Farm not found" 404 "FARM_NOT_FOUND")
  | Some farm =>
      if notAuthorized req farm then
        throw (AppError "Not authorized to control irrigation for this farm"
                 403 "UNAUTHORIZED")
      else
        activeIrrigation <- findOne (farm_id farm) running ;;
        match activeIrrigation with
        | Some _ =>
            throw (AppError "Irrigation is already running for this farm"
                     400 "IRRIGATION_ACTIVE")
        | None =>
            irrigationEvent <-
              create valid
                {| in_farmId := farm_id farm;
                   in_type := type;
                   in_status := running;
                   in_duration := JS.or_default (body_duration (body req)) 30;
                   in_zones := orElse (body_zones (body req)) [ZoneAll] |} ;;
            ret {| res_status := 201;
                   res_message := "Irrigation started successfully";
                   res_event := irrigationEvent |}
        end
  end.

Definition stopIrrigation (req : Request) : M Response :=
  event <- findById (params_eventId req) ;;
  match event with
  | None => throw (AppError "Irrigation event not found" 404 "EVENT_NOT_FOUND")
  | Some event =>
      farm <- Farm_findById (farmId event) ;;
      let isAdmin := String.eqb (user_role (user req)) "admin" in
      match farm with
      | None =>
          (* [farm.ownerId] on null, unless the role test short-circuits *)
          if isAdmin then
            if negb (Status_eqb (status event) running) then
              throw (AppError "Irrigation is not currently running"
                       400 "IRRIGATION_NOT_RUNNING")
            else
              _ <- save valid false (set_status completed event) ;;
              throw TypeError        (* [farm.name] in the log line *)
          else throw TypeError
      | Some farm =>
          if notAuthorized req farm then
            throw (AppError "Not authorized to control this irrigation"
                     403 "UNAUTHORIZED")
          else if negb (Status_eqb (status event) running) then
            throw (AppError "Irrigation is not currently running"
                     400 "IRRIGATION_NOT_RUNNING")
          else
            saved <- save valid false (set_status completed event) ;;
            ret {| res_status := 200;
                   res_message := "Irrigation stopped successfully";
                   res_event := saved |}
      end
  end.

Definition scheduleIrrigation (req : Request) : M Response :=
  let type := orElse (body_type (body req)) "scheduled" in
  farm <- Farm_findByOptId (requestedFarm req) ;;
  match farm with
  | None => throw (AppError "Farm not found" 404 "FARM_NOT_FOUND")
  | Some farm =>
      if notAuthorized req farm then
        throw (AppError "Not authorized to schedule irrigation for this farm"
                 403 "UNAUTHORIZED")
      else
        irrigationEvent <-
          create valid
            {| in_farmId := farm_id farm;
               in_type := type;
               in_status := pending;
               in_duration := JS.or_default (body_duration (body req)) 30;
               in_zones := orElse (body_zones (body req)) [ZoneAll] |} ;;
        ret {| res_status := 201;
               res_message := "Irrigation scheduled successfully";
               res_event := irrigationEvent |}
  end.

(** The requests that write to the collection, run one after another. *)
Inductive Call :=
| Start (req : Request)
| Stop (req : Request)
| Schedule (req : Request).

Definition handle (c : Call) : M Response :=
  match c with
  | Start req => startIrrigation req
  | Stop req => stopIrrigation req
  | Schedule req => scheduleIrrigation req
  end.

Definition step (db : Db) (c : Call) : Db := snd (handle c db).

Definition run (cs : list Call) (db : Db) : Db := fold_left step cs db.

End Handlers.

(** At most one stored run of the farm is running. *)
Definition singleRunning (db : Db) : Prop :=
  forall fid, (List.length (runningFor fid db) <= 1)%nat.

(** *** getIrrigationRecommendations *)



Record Recommendations := {
  rec_farmId : nat;
  averageMoisture : Z;
  recommendation : string;
  priority : string;
  estimatedDuration : Z;
  sensorCount : nat
}.




End IrrigationController.

(** ** services/aiService.js: predictIrrigationSchedule *)

Module IrrigationSchedule.

Local Open Scope Q_scope.

(** One entry of [weatherForecast.forecast], with the fields read here. *)
Record DayForecast := {
  rainfall : Q;
  temperature_max : Q;             (* [dayForecast.temperature.max] *)
  humidity : Q;
  windSpeed : Q
}.

Inductive Reason :=
| RainExpected (rainfall : Q)          (* Rain expected: r mm *)
| HighHeatIndex (rounded : Z)          (* High heat index: h *)
| ModerateHeatIndex (rounded : Z)      (* Moderate heat index: h *)
| HighWind.                            (* High wind - increased duration *)

Record Prediction := {
  date : Z;
  irrigationNeeded : bool;
  confidence : Q;
  recommendedTime : string;
  duration : Q;
  zones : list Q;
  reasoning : list Reason
}.

Inductive Result :=
| Success (schedule : list Prediction) (generatedAt validUntil : Z)
| Failure.

Definition msPerDay : Z := 24 * 60 * 60 * 1000.

Definition heatIndexOf (dayForecast : DayForecast) : Q :=
  temperature_max dayForecast + (100 - humidity dayForecast) * 0.1.

(** The body of the loop for one day that has a forecast. *)
Definition predictDay (now : Z) (day : nat) (dayForecast : DayForecast)
    : Prediction :=
  let date := (now + Z.of_nat day * msPerDay)%Z in
  if JS.gtb (rainfall dayForecast) 3 then
    {| date := date; irrigationNeeded := false; confidence := 0.9;
       recommendedTime := "06:00"; duration := 30; zones := [1; 2; 3; 4];
       reasoning := [RainExpected (rainfall dayForecast)] |}
  else
    let heatIndex := heatIndexOf dayForecast in
    let prediction :=
      if JS.gtb heatIndex 35 then
        {| date := date; irrigationNeeded := true; confidence := 0.8;
           recommendedTime := "06:00"; duration := 45; zones := [1; 2; 3; 4];
           reasoning := [HighHeatIndex (JS.round heatIndex)] |}
      else if JS.gtb heatIndex 30 then
        {| date := date; irrigationNeeded := true; confidence := 0.6;
           recommendedTime := "06:00"; duration := 30; zones := [1; 2; 3; 4];
           reasoning := [ModerateHeatIndex (JS.round heatIndex)] |}
      else
        {| date := date; irrigationNeeded := false; confidence := 0.5;
           recommendedTime := "06:00"; duration := 30; zones := [1; 2; 3; 4];
           reasoning := [] |} in
    if JS.gtb (windSpeed dayForecast) 15 then
      {| date := date; irrigationNeeded := irrigationNeeded prediction;
         confidence := confidence prediction;
         recommendedTime := recommendedTime prediction;
         duration := duration prediction + 10; zones := zones prediction;
         reasoning := reasoning prediction ++ [HighWind] |}
    else prediction.

Definition daysToPredict : nat := 7.

(** [predictIrrigationSchedule(historicalData, weatherForecast,
    farmSettings)]; only the forecast is read.  [None] stands for a
    forecast object that is missing or has no [forecast] array: reading it
    throws, and the [catch] returns the failure.  Days without an entry
    are skipped. *)
Definition predictIrrigationSchedule (now : Z)
    (weatherForecast : option (list DayForecast)) : Result :=
  match weatherForecast with
  | None => Failure
  | Some forecast =>
      let schedule :=
        flat_map
          (fun day =>
             match nth_error forecast day with
             | Some dayForecast => [predictDay now day dayForecast]
             | None => []
             end)
          (seq 0 daysToPredict) in
      Success schedule now (now + msPerDay)%Z
  end.

End IrrigationSchedule.

(** ** services/aiService.js: analyzeCropHealth *)

Module CropHealth.

Local Open Scope Q_scope.











End CropHealth.

(** ** utils/helpers.js: phone numbers, time differences, pages, retry *)

Module Utils.

Import Ascii.

(** *** formatTunisianPhone, isValidTunisianPhone *)

(** A string is its sequence of bytes.  [\d] is [[0-9]]; every byte of a
    character outside ASCII is a non-digit, as each of the character's code
    units is for the regular expression. *)
Definition isDigit (c : Ascii.ascii) : bool :=
  (48 <=? Ascii.nat_of_ascii c)%nat && (Ascii.nat_of_ascii c <=? 57)%nat.

(** [s.replace(/\D/g, '')] is [keep isDigit s]. *)
Fixpoint keep (f : Ascii.ascii -> bool) (s : string) : string :=
  match s with
  | EmptyString => EmptyString
  | String c s' => if f c then String c (keep f s') else keep f s'
  end.

Fixpoint every (f : Ascii.ascii -> bool) (s : string) : bool :=
  match s with
  | EmptyString => true
  | String c s' => f c && every f s'
  end.

(** [formatTunisianPhone(phone)] on a string, [null] or [undefined];
    [None] is the [null] returned for a falsy argument. *)
Definition formatTunisianPhone (phone : option string) : option string :=
  match phone with
  | None => None
  | Some EmptyString => None
  | Some phone =>
      let digits := keep isDigit phone in
      if Nat.eqb (String.length digits) 8 then Some ("+216" ++ digits)%string
      else if Nat.eqb (String.length digits) 11 && String.prefix "216" digits
      then Some ("+" ++ digits)%string
      else Some phone
  end.

(** [/^\+216[2-9]\d{7}$/.test(phone)] *)
Definition isValidTunisianPhone (phone : string) : bool :=
  match phone with
  | String "+"%char (String "2"%char (String "1"%char (String "6"%char
      (String c rest)))) =>
      (50 <=? Ascii.nat_of_ascii c)%nat && (Ascii.nat_of_ascii c <=? 57)%nat
      && Nat.eqb (String.length rest) 7 && every isDigit rest
  | _ => false
  end.

(** *** getTimeDifference *)

Inductive TimeUnit := day | hour | minute | second.

(** The returned text, [`${count} ${timeUnit}${plural ? 's' : ''} ago`]. *)
Record TimeDifference := {
  count : Z;
  timeUnit : TimeUnit;
  plural : bool
}.

(** [getTimeDifference(date1, date2)] on two dates in milliseconds. *)
Definition getTimeDifference (date1 date2 : Z) : TimeDifference :=
  let diff := Z.abs (date2 - date1) in
  let seconds := diff / 1000 in
  let minutes := seconds / 60 in
  let hours := minutes / 60 in
  let days := hours / 24 in
  if 0 <? days then {| count := days; timeUnit := day; plural := 1 <? days |}
  else if 0 <? hours then
    {| count := hours; timeUnit := hour; plural := 1 <? hours |}
  else if 0 <? minutes then
    {| count := minutes; timeUnit := minute; plural := 1 <? minutes |}
  else {| count := seconds; timeUnit := second; plural := 1 <? seconds |}.

(** *** paginateArray *)

(** [array.slice(start, end)] for integer arguments: a negative index
    counts from the end, and both are clamped to the array. *)
Definition slice {A} (array : list A) (start end_ : Z) : list A :=
  let len := Z.of_nat (List.length array) in
  let k := if start <? 0 then Z.max (len + start) 0 else Z.min start len in
  let final := if end_ <? 0 then Z.max (len + end_) 0 else Z.min end_ len in
  firstn (Z.to_nat (final - k)) (skipn (Z.to_nat k) array).

(** [Math.ceil] of the result of a division. *)
Definition ceilNum (x : JS.num) : JS.num :=
  match x with
  | JS.Fin q => JS.Fin (inject_Z (Qceiling q))
  | other => other
  end.

Record Page (A : Type) := {
  data : list A;
  totalCount : nat;
  page : Z;
  limit : Z;
  totalPages : JS.num
}.

Arguments data {A}.
Arguments totalCount {A}.
Arguments page {A}.
Arguments limit {A}.
Arguments totalPages {A}.

(** [paginateArray(array, page, limit)] for a page and a limit that are
    integer numbers ([parseInt] returns them as they are). *)
Definition paginateArray {A} (array : list A) (page limit : Z) : Page A :=
  let startIndex := (page - 1) * limit in
  let endIndex := startIndex + limit in
  {| data := slice array startIndex endIndex;
     totalCount := List.length array;
     page := page;
     limit := limit;
     totalPages :=
       ceilNum (JS.div (inject_Z (Z.of_nat (List.length array)))
                       (inject_Z limit)) |}.

(** *** retry *)

(** How the promise of [retry] settles; [ResolvedUndefined] is the end of
    the function body reached without [return]. *)
Inductive Outcome (E A : Type) :=
| Resolved (a : A)
| Rejected (e : E)
| ResolvedUndefined.

Arguments Resolved {E A}.
Arguments Rejected {E A}.
Arguments ResolvedUndefined {E A}.

Section Retry.

Context {E A : Type}.

(** [fn k] is what the [k]-th call of the retried function does: it throws
    or it returns. *)
Variable fn : nat -> E + A.

(** The [for] loop from [attempt] on, with the delays slept so far. *)
Fixpoint attempts (maxAttempts : nat) (baseDelay : Z) (fuel attempt : nat)
    (slept : list Z) : Outcome E A * list Z :=
  match fuel with
  | O => (ResolvedUndefined, slept)
  | S fuel =>
      if (attempt <=? maxAttempts)%nat then
        match fn attempt with
        | inr a => (Resolved a, slept)
        | inl e =>
            if Nat.eqb attempt maxAttempts then (Rejected e, slept)
            else
              let delay := baseDelay * 2 ^ (Z.of_nat attempt - 1) in
              attempts maxAttempts baseDelay fuel (S attempt) (slept ++ [delay])
        end
      else (ResolvedUndefined, slept)
  end.

(** [retry(fn, maxAttempts, baseDelay)]: the outcome and the delays slept,
    in order. *)
Definition retry (maxAttempts : nat) (baseDelay : Z) : Outcome E A * list Z :=
  attempts maxAttempts baseDelay (S maxAttempts) 1 [].

End Retry.

(** The delays before the attempts [2 .. k]. *)
Definition delaysBefore (baseDelay : Z) (k : nat) : list Z :=
  map (fun attempt => baseDelay * 2 ^ (Z.of_nat attempt - 1)) (seq 1 (k - 1)).

End Utils.

(** ** services/weatherService.js: analyzeWeatherForIrrigation *)

Module WeatherService.

Local Open Scope Q_scope.

(** [currentWeather.current], with the fields read here. *)
Record Current := {
  humidity : Q;
  windSpeed : Q;
  temperature : Q
}.

Inductive Reason :=
| HighHumidity               (* High humidity detected *)
| HighWindSpeed              (* High wind speed - increase duration *)
| RainExpected (rainfall : Q)   (* Rain expected: r mm *)
| HighTemperature.           (* High temperature - irrigate early morning *)

Inductive Timing := now | early_morning.

Record Recommendations := {
  shouldIrrigate : bool;
  confidence : Q;
  reasons : list Reason;
  timing : Timing;
  adjustments_duration : option string
}.

(** [nextDayForecast && nextDayForecast.rainfall > 5], on the rainfall of
    the entries of [forecast.forecast]; a day may have no rainfall. *)
Definition rainAhead (forecast : list (option Q)) : option Q :=
  match forecast with
  | Some rainfall :: _ => if JS.gtb rainfall 5 then Some rainfall else None
  | _ => None
  end.

(** The confidence before it is clamped. *)
Definition summedConfidence (current : Current) (forecast : list (option Q)) : Q :=
  let c := 0.5 in
  let c := if JS.gtb (humidity current) 80 then c + 0.2 else c in
  match rainAhead forecast with Some _ => c + 0.3 | None => c end.

Definition analyzeWeatherForIrrigation (current : Current)
    (forecast : list (option Q)) : Recommendations :=
  let humid := JS.gtb (humidity current) 80 in
  let windy := JS.gtb (windSpeed current) 20 in
  let rain := rainAhead forecast in
  let hot := JS.gtb (temperature current) 35 in
  {| shouldIrrigate :=
       negb humid && match rain with Some _ => false | None => true end;
     confidence := JS.min 1 (JS.max 0 (summedConfidence current forecast));
     reasons :=
       (if humid then [HighHumidity] else [])
       ++ (if windy then [HighWindSpeed] else [])
       ++ match rain with Some r => [RainExpected r] | None => [] end
       ++ (if hot then [HighTemperature] else []);
     timing := if hot then early_morning else now;
     adjustments_duration := if windy then Some "increase"%string else None |}.

End WeatherService.

(** ** models/Farm.js: the zones of a farm *)

Module FarmZones.

Local Open Scope Q_scope.

(** A zone with the fields the hook and the methods read; zone ids are
    integers, as [addZone] assigns them. *)
Record Zone := {
  zone_id : Z;
  area : Q;
  name : string
}.

(** The argument of [addZone]; it may carry an [id] of its own. *)
Record ZoneData := {
  data_id : option Z;
  data_area : Q;
  data_name : string
}.

Record Doc := {
  _id : nat;
  location_area : Q;
  location_zones : list Zone
}.

Definition set_zones (zs : list Zone) (d : Doc) : Doc :=
  {| _id := _id d; location_area := location_area d; location_zones := zs |}.

Inductive Error :=
| ValidationError
| HookError (message : string).

(** [this.location.zones.reduce((total, zone) => total + zone.area, 0)] *)
Definition totalZoneArea (this : Doc) : Q :=
  fold_left (fun total zone => total + area zone) (location_zones this) 0.

(** The [pre('save')] hook; [None] is [next()].  Only the number of the
    distinct ids is read from the [Set]. *)
Definition preSave (this : Doc) : option Error :=
  let zoneIds := map zone_id (location_zones this) in
  let uniqueZoneIds := nodup Z.eq_dec zoneIds in
  if negb (Nat.eqb (List.length zoneIds) (List.length uniqueZoneIds)) then
    Some (HookError "Zone IDs must be unique")
  else if JS.gtb (totalZoneArea this) (location_area this * 1.1) then
    Some (HookError "Total zone area cannot exceed farm area")
  else None.

(** [Math.max(...ids)] of a non-empty array of ids. *)
Definition maxId (z : Z) (zs : list Z) : Z := fold_left Z.max zs z.

Section Persistence.

(** The schema's validation of a farm document. *)
Variable valid : Doc -> bool.

(** [this.save()] of a stored farm: validation, the hook, then the update
    of the stored document with this id. *)
Definition save (this : Doc) (farms : list Doc) : (Error + Doc) * list Doc :=
  if negb (valid this) then (inl ValidationError, farms)
  else
    match preSave this with
    | Some e => (inl e, farms)
    | None =>
        (inr this,
         map (fun f => if Nat.eqb (_id f) (_id this) then this else f) farms)
    end.

(** [farm.addZone(zoneData)]: the spread comes after [id], so an [id] of
    [zoneData] replaces the computed one.  The first component is the
    document in memory after the call. *)
Definition addZone (zoneData : ZoneData) (this : Doc) (farms : list Doc)
    : Doc * ((Error + Doc) * list Doc) :=
  let nextId :=
    match map zone_id (location_zones this) with
    | z :: zs => (maxId z zs + 1)%Z
    | [] => 1%Z
    end in
  let zone :=
    {| zone_id := match data_id zoneData with Some i => i | None => nextId end;
       area := data_area zoneData;
       name := data_name zoneData |} in
  let this := set_zones (location_zones this ++ [zone]) this in
  (this, save this farms).

(** [farm.removeZone(zoneId)] *)
Definition removeZone (zoneId : Z) (this : Doc) (farms : list Doc)
    : Doc * ((Error + Doc) * list Doc) :=
  let this :=
    set_zones (filter (fun zone => negb (Z.eqb (zone_id zone) zoneId))
                 (location_zones this)) this in
  (this, save this farms).

End Persistence.

(** The schema's bound on the area of every zone. *)
Definition zoneAreasValid (this : Doc) : bool :=
  forallb (fun zone => JS.geb (area zone) 0.01) (location_zones this).

End FarmZones.


(** ** Concrete inputs used by the examples below *)

Module Scenario.

Local Open Scope Q_scope.

(** A reading at 0 degrees Celsius, every value present. *)
Definition readingAtZeroDegrees : SensorReading.Readings :=
  {| SensorReading.moistureLevel := 50;
     SensorReading.temperature := Some 0;
     SensorReading.humidity := Some 50;
     SensorReading.batteryLevel := 100;
     SensorReading.signalStrength := Some (-75) |}.

(** A sensor with the schema's default alert settings, just calibrated. *)
Definition sensor1 : SensorReading.Sensor :=
  {| SensorReading.sensor_id := 1;
     SensorReading.moistureThreshold_enabled := true;
     SensorReading.moistureThreshold_low := 30;
     SensorReading.moistureThreshold_high := 90;
     SensorReading.lowBattery_enabled := true;
     SensorReading.lowBattery_threshold := 20;
     SensorReading.calibration_lastCalibrated := 0 |}.

Definition dryReading (moisture : Q) : SensorReading.Readings :=
  {| SensorReading.moistureLevel := moisture;
     SensorReading.temperature := Some 25;
     SensorReading.humidity := Some 40;
     SensorReading.batteryLevel := 90;
     SensorReading.signalStrength := Some (-60) |}.

Definition readingsDb0 : SensorReading.Db :=
  {| SensorReading.sensors := [sensor1]; SensorReading.collection := [] |}.

(** Two dry readings of sensor 1 saved one after the other. *)
Definition readingsDb1 : SensorReading.Db :=
  snd (SensorReading.create readingsDb0 1000 1 7 (dryReading 20) None).

Definition readingsDb2 : SensorReading.Db :=
  snd (SensorReading.create readingsDb1 2000 1 7 (dryReading 10) None).

Definition reading (moisture : Q) (q : SensorReading.Quality) : AiService.SensorData :=
  {| AiService.moistureLevel := moisture; AiService.quality := q;
     AiService.zone := None |}.

Definition target80 : AiService.FarmSettings :=
  {| AiService.targetMoisture := Some 80 |}.

(** Weather with the given humidity, 20 degrees and an empty forecast. *)
Definition weatherWithHumidity (h : Q) : AiService.WeatherData :=
  {| AiService.current := {| AiService.humidity := h; AiService.temperature := 20 |};
     AiService.forecast := Some [] |}.

(** A farm with zones 1 and 2, owned by user 1. *)
Definition farm1 : IrrigationEvent.Farm :=
  {| IrrigationEvent.farm_id := 1; IrrigationEvent.ownerId := 1;
     IrrigationEvent.name := "Olive grove";
     IrrigationEvent.location_zones := [1; 2]%Z |}.

(** A stored run of farm 1 that satisfies the schema: 30 minutes on zone 1,
    150 litres planned, in the given status. *)
Definition run1 (s : IrrigationEvent.Status) : IrrigationEvent.Doc :=
  {| IrrigationEvent._id := 0; IrrigationEvent.farmId := 1;
     IrrigationEvent.userId := Some 1%nat;
     IrrigationEvent.type := "manual";
     IrrigationEvent.zones := [IrrigationEvent.ZoneNum 1];
     IrrigationEvent.duration := 30;
     IrrigationEvent.waterAmount_planned := Some 150;
     IrrigationEvent.waterAmount_actual := 0;
     IrrigationEvent.schedule_startTime := Some 0%Z;
     IrrigationEvent.schedule_endTime := Some 1800000%Z;
     IrrigationEvent.schedule_actualStartTime := Some 0%Z;
     IrrigationEvent.schedule_actualEndTime := None;
     IrrigationEvent.status := s;
     IrrigationEvent.trigger_reason := Some IrrigationEvent.manual;
     IrrigationEvent.settings_flowRate := 5;
     IrrigationEvent.results_waterUsed := 0;
     IrrigationEvent.results_efficiency := None;
     IrrigationEvent.results_moistureIncrease := [];
     IrrigationEvent.notes := None;
     IrrigationEvent.cost_water := 0;
     IrrigationEvent.cost_electricity := 0;
     IrrigationEvent.cost_fertilizer := 0;
     IrrigationEvent.cost_total := 0 |}.

Definition irrigationDb (es : list IrrigationEvent.Doc) : IrrigationEvent.Db :=
  {| IrrigationEvent.farms := [farm1]; IrrigationEvent.events := es;
     IrrigationEvent.nextId := List.length es |}.

(** The owner of farm 1 asking for zone 1, or naming a stored run. *)
Definition ownerRequest (eventId : nat) : IrrigationController.Request :=
  {| IrrigationController.body :=
       {| IrrigationController.body_farmId := Some 1%nat;
          IrrigationController.body_duration := Some 30;
          IrrigationController.body_zones := Some [IrrigationEvent.ZoneNum 1];
          IrrigationController.body_type := None |};
     IrrigationController.params_eventId := eventId;
     IrrigationController.user :=
       {| IrrigationController.user_role := "farmer";
          IrrigationController.user_userId := 1;
          IrrigationController.user_farmId := Some 1%nat |} |}.


(** A validation that lets every document through. *)
Definition anyDoc (d : IrrigationEvent.Doc) : bool := true.

End Scenario.

(** * Properties *)

(** ** Number helpers *)

Section JsNumbers.

Local Open Scope Q_scope.

Lemma ltb_lt a b : JS.ltb a b = true <-> a < b.
Proof.
  unfold JS.ltb. rewrite negb_true_iff.
  split; intro H.
  - apply Qnot_le_lt. intro Hle. apply Qle_bool_iff in Hle. congruence.
  - destruct (Qle_bool b a) eqn:E; [|reflexivity].
    apply Qle_bool_iff in E. exfalso. apply (Qlt_not_le _ _ H E).
Qed.

Lemma ltb_ge a b : JS.ltb a b = false <-> b <= a.
Proof.
  unfold JS.ltb. rewrite negb_false_iff. apply Qle_bool_iff.
Qed.

Lemma gtb_gt a b : JS.gtb a b = true <-> b < a.
Proof. apply ltb_lt. Qed.

Lemma gtb_le a b : JS.gtb a b = false <-> a <= b.
Proof. apply ltb_ge. Qed.

Lemma max_lub a b : a <= JS.max a b /\ b <= JS.max a b.
Proof.
  unfold JS.max. destruct (Qle_bool a b) eqn:E.
  - apply Qle_bool_iff in E. split; [assumption | apply Qle_refl].
  - split; [apply Qle_refl|].
    apply Qlt_le_weak, ltb_lt. unfold JS.ltb. now rewrite E.
Qed.

Lemma min_glb a b : JS.min a b <= a /\ JS.min a b <= b.
Proof.
  unfold JS.min. destruct (Qle_bool a b) eqn:E.
  - apply Qle_bool_iff in E. split; [apply Qle_refl | assumption].
  - split; [|apply Qle_refl].
    apply Qlt_le_weak, ltb_lt. unfold JS.ltb. now rewrite E.
Qed.

Lemma round_mono x y : x <= y -> (JS.round x <= JS.round y)%Z.
Proof.
  intro H. unfold JS.round. apply Qfloor_resp_le. lra.
Qed.

Lemma round_Z (z : Z) : JS.round (inject_Z z) = z.
Proof.
  unfold JS.round.
  assert (Hlo : (z <= Qfloor (inject_Z z + (1 # 2)))%Z).
  { rewrite <- (Qfloor_Z z) at 1. apply Qfloor_resp_le.
    rewrite <- (Qplus_0_r (inject_Z z)) at 1. apply Qplus_le_r. discriminate. }
  assert (Hhi : (Qfloor (inject_Z z + (1 # 2)) < z + 1)%Z).
  { rewrite Zlt_Qlt. eapply Qle_lt_trans; [apply Qfloor_le|].
    rewrite inject_Z_plus. apply Qplus_lt_r. reflexivity. }
  lia.
Qed.

End JsNumbers.

(** ** Calibration: raw value to percentage *)

Section Calibration.

Local Open Scope Q_scope.



End Calibration.

(** ** Reading quality and alerts *)

Module SensorReadingFacts.

Import SensorReading.

Local Open Scope Q_scope.

Lemma truthy_Some (q : Q) : JS.truthy (Some q) = false <-> q == 0.
Proof.
  unfold JS.truthy. rewrite negb_false_iff. apply Qeq_bool_iff.
Qed.

(** Away from the value 0 the hook computes the specified score and band. *)
Lemma qualityScore_spec_off_zero (r : Readings) :
  (forall t, temperature r = Some t -> ~ t == 0) ->
  (forall h, humidity r = Some h -> ~ h == 0) ->
  qualityScore r = qualityScore_spec r
  /\ qualityOfScore (qualityScore r) = qualityBand_spec (qualityScore_spec r).
Proof.
  intros Ht Hh.
  assert (E : qualityScore r = qualityScore_spec r).
  { unfold qualityScore, qualityScore_spec.
    assert (Et : negb (JS.truthy (temperature r))
                 = match temperature r with None => true | Some _ => false end).
    { destruct (temperature r) as [t|]; [|reflexivity].
      destruct (JS.truthy (Some t)) eqn:E; [reflexivity|].
      apply truthy_Some in E. exfalso. exact (Ht t eq_refl E). }
    assert (Eh : negb (JS.truthy (humidity r))
                 = match humidity r with None => true | Some _ => false end).
    { destruct (humidity r) as [h|]; [|reflexivity].
      destruct (JS.truthy (Some h)) eqn:E; [reflexivity|].
      apply truthy_Some in E. exfalso. exact (Hh h eq_refl E). }
    rewrite Et, Eh.
    assert (Es : match signalStrength r with
                 | Some s =>
                     if JS.truthy (Some s) then
                       if JS.ltb s (-80) then (100 - 20)%Z
                       else if JS.ltb s (-70) then (100 - 10)%Z else 100%Z
                     else 100%Z
                 | None => 100%Z
                 end
                 = (100 - match signalStrength r with
                          | Some s => if JS.ltb s (-80) then 20
                                      else if JS.ltb s (-70) then 10 else 0
                          | None => 0
                          end)%Z).
    { destruct (signalStrength r) as [s|]; [|reflexivity].
      destruct (JS.truthy (Some s)) eqn:E.
      - destruct (JS.ltb s (-80)); [reflexivity|].
        destruct (JS.ltb s (-70)); reflexivity.
      - apply truthy_Some in E.
        assert (H80 : JS.ltb s (-80) = false) by (apply ltb_ge; lra).
        assert (H70 : JS.ltb s (-70) = false) by (apply ltb_ge; lra).
        rewrite H80, H70. reflexivity. }
    rewrite Es.
    destruct (signalStrength r) as [s|];
      [destruct (JS.ltb s (-80)); [|destruct (JS.ltb s (-70))]|];
      (destruct (JS.ltb (batteryLevel r) 20);
       [|destruct (JS.ltb (batteryLevel r) 40)]);
      destruct (temperature r); destruct (humidity r); reflexivity. }
  split; [exact E|]. rewrite E. reflexivity.
Qed.

(** C8. A reading that reports a temperature of 0 degrees has every
    optional value present, so the specified score is 100 - 10 = 90 and the
    band is excellent; the hook tests the value for truthiness, counts the
    0 as missing, scores 85 and stores the band good. *)
Theorem quality_counts_zero_as_missing :
  validate Scenario.readingAtZeroDegrees = true
  /\ qualityScore Scenario.readingAtZeroDegrees = 85%Z
  /\ qualityOfScore (qualityScore Scenario.readingAtZeroDegrees) = good
  /\ qualityScore_spec Scenario.readingAtZeroDegrees = 90%Z
  /\ qualityBand_spec (qualityScore_spec Scenario.readingAtZeroDegrees) = excellent.
Proof.
  repeat split; reflexivity.
Qed.

(** *** Alerts *)

Ltac split_ifs :=
  repeat match goal with
         | |- context [if ?b then _ else _] => destruct b
         end.

Lemma generateAlerts_NoDup sensor r now :
  NoDup (map alert_type (generateAlerts sensor r now)).
Proof.
  unfold generateAlerts. split_ifs; simpl;
    repeat (constructor; [simpl; intuition discriminate|]); constructor.
Qed.

Lemma generateAlerts_unacknowledged sensor r now :
  forallb (fun a => negb (acknowledged a)) (generateAlerts sensor r now) = true.
Proof.
  unfold generateAlerts. split_ifs; reflexivity.
Qed.

Lemma filter_type_NoDup t (l : list Alert) :
  NoDup (map alert_type l) ->
  (List.length (filter (fun a => AlertType_eqb (alert_type a) t) l) <= 1)%nat.
Proof.
  induction l as [|a l IH]; simpl; intro H; [lia|].
  inversion H as [|x xs Hnotin Hnd]; subst.
  destruct (AlertType_eqb (alert_type a) t) eqn:E; [|auto].
  assert (Et : alert_type a = t) by (destruct (alert_type a), t; simpl in E; congruence).
  assert (Hnone : filter (fun a0 => AlertType_eqb (alert_type a0) t) l = []).
  { clear IH H Hnd. induction l as [|b l IHl]; [reflexivity|]. simpl.
    destruct (AlertType_eqb (alert_type b) t) eqn:Eb.
    - exfalso. apply Hnotin. left.
      destruct (alert_type b), t; simpl in Eb; congruence.
    - apply IHl. intro Hin. apply Hnotin. right. exact Hin. }
  rewrite Hnone. simpl. lia.
Qed.

Lemma filter_pending_unacknowledged t (l : list Alert) :
  forallb (fun a => negb (acknowledged a)) l = true ->
  filter (fun a => AlertType_eqb (alert_type a) t && negb (acknowledged a)) l
  = filter (fun a => AlertType_eqb (alert_type a) t) l.
Proof.
  induction l as [|a l IH]; simpl; [reflexivity|].
  intro H. apply andb_true_iff in H. destruct H as [Ha Hl].
  rewrite Ha, andb_true_r, (IH Hl). reflexivity.
Qed.

(** C7 (amended). The alert list of a saved reading is rebuilt from empty
    and holds at most one alert of each type, all unacknowledged; nothing
    is deduplicated across readings: the pending alerts of the device are
    those held before followed by the ones of the new reading, and the
    alerts of other devices are as before. *)
Theorem save_appends_own_alerts :
  forall db now sid fid r ts d db',
    create db now sid fid r ts = (Some d, db') ->
    NoDup (map alert_type (alerts d))
    /\ (forall t, (List.length (raisedOf t d) <= 1)%nat)
    /\ (forall t, pendingAlerts db' sid t = pendingAlerts db sid t ++ raisedOf t d)
    /\ (forall other t, other <> sid ->
          pendingAlerts db' other t = pendingAlerts db other t).
Proof.
  intros db now sid fid r ts d db' H.
  unfold create, save in H. simpl in H.
  destruct (validate r); [|discriminate].
  injection H as Hd Hdb. rewrite Hd in Hdb. subst db'.
  assert (Hsid : sensorId d = sid) by
    (subst d; unfold preSaveAlerts, preSaveQuality; simpl;
     destruct (findSensorById (sensors db) sid); reflexivity).
  assert (Hal : NoDup (map alert_type (alerts d))
                /\ forallb (fun a => negb (acknowledged a)) (alerts d) = true).
  { subst d. unfold preSaveAlerts, preSaveQuality. simpl.
    destruct (findSensorById (sensors db) sid) as [sensor|]; simpl.
    - split; [apply generateAlerts_NoDup | apply generateAlerts_unacknowledged].
    - split; [constructor | reflexivity]. }
  destruct Hal as [Hnd Hack].
  split; [exact Hnd|].
  split; [intro t; apply filter_type_NoDup; exact Hnd|].
  split.
  - intro t. unfold pendingAlerts. simpl.
    rewrite flat_map_app. simpl. rewrite app_nil_r.
    rewrite Hsid, Nat.eqb_refl.
    rewrite (filter_pending_unacknowledged t _ Hack). reflexivity.
  - intros other t Hneq. unfold pendingAlerts. simpl.
    rewrite flat_map_app. simpl.
    rewrite Hsid.
    destruct (Nat.eqb sid other) eqn:E.
    + apply Nat.eqb_eq in E. congruence.
    + rewrite !app_nil_r. reflexivity.
Qed.

Lemma save_appends_own_alerts_witness :
  exists d,
    create Scenario.readingsDb1 2000 1 7 (Scenario.dryReading 10) None
      = (Some d, Scenario.readingsDb2)
    /\ NoDup (map alert_type (alerts d))
    /\ pendingAlerts Scenario.readingsDb2 1%nat low_moisture
       = pendingAlerts Scenario.readingsDb1 1%nat low_moisture
           ++ raisedOf low_moisture d.
Proof.
  eexists. split; [reflexivity|].
  pose proof (save_appends_own_alerts Scenario.readingsDb1 2000 1 7
                (Scenario.dryReading 10) None _ Scenario.readingsDb2 eq_refl)
    as [Hnd [_ [Happ _]]].
  split; [exact Hnd | exact (Happ low_moisture)].
Defined.

(** C7, as stated, fails: after two dry readings of the same sensor, none
    acknowledged, the store holds two pending low-moisture alerts for it,
    the older one with its own message, not one. *)
Lemma two_readings_two_pending_alerts :
  List.length (pendingAlerts Scenario.readingsDb2 1%nat low_moisture) = 2%nat
  /\ ~ (List.length (pendingAlerts Scenario.readingsDb2 1%nat low_moisture) <= 1)%nat
  /\ map message (pendingAlerts Scenario.readingsDb2 1%nat low_moisture)
     = [CriticalMoistureLevel 20; CriticalMoistureLevel 10].
Proof.
  split; [reflexivity|]. split; [|reflexivity].
  change (List.length (pendingAlerts Scenario.readingsDb2 1%nat low_moisture))
    with 2%nat. lia.
Qed.


End SensorReadingFacts.

(** ** The irrigation recommendation *)

Module AiServiceFacts.

Import AiService.

Local Open Scope Q_scope.





Lemma dataQuality_none_good (sensorData : list SensorData) :
  forallb (fun reading => negb (isGood (quality reading))) sensorData = true ->
  dataQuality sensorData == 0.
Proof.
  intro Hall. unfold dataQuality.
  assert (E : filter (fun reading => isGood (quality reading)) sensorData = []).
  { induction sensorData as [|x l IH]; [reflexivity|].
    simpl in *. apply andb_true_iff in Hall. destruct Hall as [Hx Hl].
    apply negb_true_iff in Hx. rewrite Hx. exact (IH Hl). }
  rewrite E. unfold size at 1. simpl. unfold Qdiv. apply Qmult_0_l.
Qed.

(** *** The steps of the function, one at a time *)

Lemma generate_nonempty sensorData weatherData farmSettings :
  sensorData <> [] ->
  generateIrrigationRecommendation sensorData weatherData farmSettings
  = Some (Success
            (set_confidence
               (confidence (unweighted sensorData weatherData farmSettings)
                * dataQuality sensorData)
               (unweighted sensorData weatherData farmSettings))).
Proof.
  intro H. destruct sensorData; [congruence | reflexivity].
Qed.

Lemma irrigationParameters_keeps sensorData m t r :
  action (irrigationParameters sensorData m t r) = action r
  /\ confidence (irrigationParameters sensorData m t r) = confidence r
  /\ reasoning (irrigationParameters sensorData m t r) = reasoning r
  /\ timing (irrigationParameters sensorData m t r) = timing r.
Proof.
  unfold irrigationParameters.
  destruct (includes _ _); [|repeat split].
  destruct (Nat.eqb _ _); repeat split.
Qed.







(** *** Quality and the mean *)

Lemma sum_measurements (sensorData : list SensorData) (a : Q) :
  fold_left (fun sum reading => sum + moistureLevel reading) sensorData a
  = fold_left Qplus (map fst (measurements sensorData)) a.
Proof.
  revert a. induction sensorData as [|x l IH]; intro a; [reflexivity|].
  simpl. apply IH.
Qed.

Lemma size_measurements (sensorData : list SensorData) :
  size sensorData = inject_Z (Z.of_nat (List.length (measurements sensorData))).
Proof.
  unfold size, measurements. rewrite length_map. reflexivity.
Qed.

Lemma zones_measurements (sensorData : list SensorData) (bound : Q) :
  map (fun reading => JS.or_default (zone reading) 1)
    (filter (fun reading => JS.ltb (moistureLevel reading) bound) sensorData)
  = map (fun p => JS.or_default (snd p) 1)
      (filter (fun p => JS.ltb (fst p) bound) (measurements sensorData)).
Proof.
  induction sensorData as [|x l IH]; [reflexivity|].
  simpl. destruct (JS.ltb (moistureLevel x) bound); simpl; rewrite IH; reflexivity.
Qed.

Lemma avgMoisture_measurements sd sd' :
  measurements sd = measurements sd' -> avgMoisture sd = avgMoisture sd'.
Proof.
  intro H. unfold avgMoisture.
  rewrite !sum_measurements, !size_measurements, H. reflexivity.
Qed.

Lemma unweighted_measurements sd sd' weatherData farmSettings :
  measurements sd = measurements sd' ->
  unweighted sd weatherData farmSettings = unweighted sd' weatherData farmSettings.
Proof.
  intro H. unfold unweighted. cbv zeta.
  rewrite (avgMoisture_measurements sd sd' H).
  unfold irrigationParameters.
  rewrite !zones_measurements, H. reflexivity.
Qed.

(** C5 (amended). Every reading enters the arithmetic mean whatever its
    quality, and no 0.1 penalty exists: two inputs with the same moistures
    and zones have the same mean and, before the weighting, the same
    recommendation; quality acts only through the final weighting of the
    confidence, which is 0 when every reading is poor. *)
Theorem quality_only_weights_confidence :
  forall sd sd' weatherData farmSettings,
    measurements sd = measurements sd' ->
    avgMoisture sd = avgMoisture sd'
    /\ avgMoisture sd = mean (map moistureLevel sd)
    /\ unweighted sd weatherData farmSettings
       = unweighted sd' weatherData farmSettings
    /\ (sd <> [] ->
        forallb (fun reading => isPoor (quality reading)) sd = true ->
        exists r,
          generateIrrigationRecommendation sd weatherData farmSettings
          = Some (Success r)
          /\ action r = action (unweighted sd weatherData farmSettings)
          /\ confidence r == 0).
Proof.
  intros sd sd' weatherData farmSettings H.
  split; [exact (avgMoisture_measurements sd sd' H)|].
  split.
  { unfold avgMoisture, mean, size. rewrite sum_measurements.
    unfold measurements. rewrite !map_map, length_map. reflexivity. }
  split; [exact (unweighted_measurements sd sd' weatherData farmSettings H)|].
  intros Hne Hpoor.
  eexists. split; [apply generate_nonempty; exact Hne|].
  split; [reflexivity|]. simpl.
  rewrite dataQuality_none_good; [apply Qmult_0_r|].
  clear Hne H. induction sd as [|x l IH]; [reflexivity|].
  simpl in *. apply andb_true_iff in Hpoor. destruct Hpoor as [Hx Hl].
  rewrite (IH Hl), andb_true_r.
  destruct (quality x); simpl in *; congruence.
Qed.

Lemma quality_only_weights_confidence_witness :
  avgMoisture [Scenario.reading 20 SensorReading.poor]
  = avgMoisture [Scenario.reading 20 SensorReading.good]
  /\ exists r,
       generateIrrigationRecommendation [Scenario.reading 20 SensorReading.poor]
         None Scenario.target80 = Some (Success r)
       /\ confidence r == 0.
Proof.
  pose proof (quality_only_weights_confidence
                [Scenario.reading 20 SensorReading.poor]
                [Scenario.reading 20 SensorReading.good]
                None Scenario.target80 eq_refl) as [Havg [_ [_ H]]].
  split; [exact Havg|].
  destruct H as [r [Hr [_ Hc]]]; [discriminate | reflexivity |].
  exists r. split; [exact Hr | exact Hc].
Defined.

(** C5, as stated, fails: with one poor reading at 10% and one good
    reading at 90% the code averages both (50%, hence schedule_irrigation
    for target 80%), where the mean without the poor reading is 90%; and a
    single poor reading at 20% yields confidence 0, not 0.9 less 0.1. *)
Lemma poor_readings_enter_the_mean :
  avgMoisture [Scenario.reading 10 SensorReading.poor;
               Scenario.reading 90 SensorReading.good] == 50
  /\ aggregate_spec [Scenario.reading 10 SensorReading.poor;
                     Scenario.reading 90 SensorReading.good] == 90
  /\ ~ avgMoisture [Scenario.reading 10 SensorReading.poor;
                    Scenario.reading 90 SensorReading.good]
       == aggregate_spec [Scenario.reading 10 SensorReading.poor;
                          Scenario.reading 90 SensorReading.good]
  /\ (exists r,
        generateIrrigationRecommendation
          [Scenario.reading 10 SensorReading.poor;
           Scenario.reading 90 SensorReading.good] None Scenario.target80
        = Some (Success r)
        /\ action r = schedule_irrigation)
  /\ (exists r,
        generateIrrigationRecommendation [Scenario.reading 20 SensorReading.poor]
          None Scenario.target80 = Some (Success r)
        /\ confidence r == 0
        /\ ~ confidence r == 0.9 - 0.1).
Proof.
  split; [reflexivity|]. split; [reflexivity|].
  split; [intro H; vm_compute in H; discriminate|].
  split; [eexists; split; reflexivity|].
  eexists. split; [reflexivity|]. split; [reflexivity|].
  intro H. vm_compute in H. discriminate.
Qed.


(** *** The final confidence *)








(** *** A missing forecast *)

Lemma analyzeWeather_calm w r :
  calm w -> analyzeWeather (Some w) r = r.
Proof.
  intros [Hh [Hr Ht]]. unfold analyzeWeather. rewrite Hh, Hr, Ht. reflexivity.
Qed.

(** C9 (amended). When no weather data is available the function still
    returns a successful recommendation, computed from the sensor data
    alone: the band's action, the band's confidence times the data-quality
    fraction, no timing, and only the moisture entry as reasoning.  No
    penalty is applied and nothing reports the missing forecast: the
    result is the one of a forecast that triggers no adjustment. *)
Theorem missing_forecast_is_ignored :
  forall sensorData farmSettings,
    sensorData <> [] ->
    let base :=
      analyzeMoisture (avgMoisture sensorData) (targetOf farmSettings) initial in
    exists r,
      generateIrrigationRecommendation sensorData None farmSettings
      = Some (Success r)
      /\ action r = action base
      /\ confidence r = confidence base * dataQuality sensorData
      /\ reasoning r = reasoning base
      /\ timing r = None
      /\ forall w, calm w ->
           generateIrrigationRecommendation sensorData (Some w) farmSettings
           = Some (Success r).
Proof.
  intros sensorData farmSettings Hne base.
  eexists. split; [apply generate_nonempty; exact Hne|].
  destruct (irrigationParameters_keeps sensorData (avgMoisture sensorData)
              (targetOf farmSettings) base) as [Ka [Kc [Kr Kt]]].
  assert (Hu : unweighted sensorData None farmSettings
               = irrigationParameters sensorData (avgMoisture sensorData)
                   (targetOf farmSettings) base) by reflexivity.
  simpl. rewrite Hu, Ka, Kc, Kr, Kt.
  repeat (split; [reflexivity|]).
  split.
  { subst base. unfold analyzeMoisture.
    destruct (JS.ltb _ _); [reflexivity|].
    destruct (JS.ltb _ _); [reflexivity|].
    destruct (JS.ltb _ _); reflexivity. }
  intros w Hw. rewrite (generate_nonempty _ _ _ Hne).
  unfold unweighted. cbv zeta. rewrite (analyzeWeather_calm w _ Hw).
  fold base. rewrite Kc. reflexivity.
Qed.

Lemma missing_forecast_is_ignored_witness :
  exists r,
    generateIrrigationRecommendation [Scenario.reading 20 SensorReading.good]
      None Scenario.target80 = Some (Success r)
    /\ action r = irrigate_now
    /\ timing r = None.
Proof.
  destruct (missing_forecast_is_ignored
              [Scenario.reading 20 SensorReading.good] Scenario.target80)
    as [r [Hr [Ha [_ [_ [Ht _]]]]]]; [discriminate|].
  exists r. split; [exact Hr|]. split; [exact Ha | exact Ht].
Defined.

(** C9, as stated, fails: for one good reading at 20% and target 80% the
    result without weather data is the result under calm weather, with the
    full confidence 0.9 of the band and the moisture entry as the only
    reasoning; no penalty, no notice. *)
Lemma no_penalty_without_forecast :
  generateIrrigationRecommendation [Scenario.reading 20 SensorReading.good]
    None Scenario.target80
  = generateIrrigationRecommendation [Scenario.reading 20 SensorReading.good]
      (Some (Scenario.weatherWithHumidity 50)) Scenario.target80
  /\ exists r,
       generateIrrigationRecommendation [Scenario.reading 20 SensorReading.good]
         None Scenario.target80 = Some (Success r)
       /\ confidence r == 0.9
       /\ ~ confidence r < 0.9
       /\ reasoning r = [CriticalMoisture 20 80].
Proof.
  split; [reflexivity|].
  eexists. split; [reflexivity|]. split; [reflexivity|].
  split; [|reflexivity].
  intro H. vm_compute in H. discriminate.
Qed.


End AiServiceFacts.

(** ** The irrigation run lifecycle *)

Module IrrigationFacts.

Import IrrigationEvent IrrigationController.

Local Open Scope Q_scope.

(** *** Saving *)

Lemma preSaveCompute_keeps d :
  _id (preSaveCompute d) = _id d
  /\ farmId (preSaveCompute d) = farmId d
  /\ status (preSaveCompute d) = status d
  /\ results_efficiency (preSaveCompute d) = results_efficiency d
  /\ schedule_actualEndTime (preSaveCompute d) = schedule_actualEndTime d.
Proof.
  unfold preSaveCompute.
  destruct (schedule_startTime d) as [s|], (schedule_endTime d) as [e|];
    try destruct (JS.truthy (Some (duration d)));
    simpl;
    repeat match goal with
           | |- context [if ?b then _ else _] => destruct b
           end;
    simpl; repeat split.
Qed.

Lemma preSaveZones_db d db :
  exists r, preSaveZones d db = (r, db).
Proof.
  unfold preSaveZones, bind, Farm_findById.
  destruct (find _ (farms db)) as [farm|]; [|eexists; reflexivity].
  destruct (Nat.ltb _ _); eexists; reflexivity.
Qed.

(** A save either fails and leaves the database as it was, or stores the
    document as the first hook completed it. *)
Lemma save_inv valid isNew d db r db' :
  save valid isNew d db = (r, db') ->
  (exists e, r = inl e /\ db' = db)
  \/ (r = inr (preSaveCompute d)
      /\ valid d = true
      /\ farms db' = farms db
      /\ nextId db' = nextId db
      /\ if isNew then events db' = events db ++ [preSaveCompute d]
         else updateById (preSaveCompute d) (events db) = Some (events db')).
Proof.
  unfold save. intro H.
  destruct (valid d); [|injection H as <- <-; left; eauto].
  destruct (preSaveZones_db (preSaveCompute d) db) as [z Hz]. rewrite Hz in H.
  destruct z as [e|u]; [injection H as <- <-; left; eauto|].
  destruct isNew.
  - injection H as <- <-. right. repeat split.
  - destruct (updateById (preSaveCompute d) (events db)) as [es|] eqn:Hu.
    + injection H as <- <-. right. repeat split.
    + injection H as <- <-. left. eauto.
Qed.

Lemma Farm_findByOptId_db o db :
  exists f, Farm_findByOptId o db = (inr f, db).
Proof.
  destruct o; eexists; reflexivity.
Qed.

(** *** What each request does to the collection *)

Lemma find_none_filter {A} (f : A -> bool) (l : list A) :
  find f l = None -> filter f l = [].
Proof.
  induction l as [|a l IH]; [reflexivity|]. simpl.
  destruct (f a); [discriminate | exact IH].
Qed.


Lemma start_effect valid req db :
  farms (step valid db (Start req)) = farms db
  /\ (events (step valid db (Start req)) = events db
      \/ exists d,
           events (step valid db (Start req)) = events db ++ [d]
           /\ status d = running
           /\ runningFor (farmId d) db = []).
Proof.
  unfold step, handle, startIrrigation, bind.
  destruct (Farm_findByOptId_db (requestedFarm req) db) as [f Hf]. rewrite Hf.
  destruct f as [farm|]; [|simpl; auto].
  destruct (notAuthorized req farm); [simpl; auto|].
  unfold findOne.
  destruct (find _ (events db)) as [active|] eqn:Hfind; [simpl; auto|].
  unfold create.
  match goal with
  | |- context [save valid true ?d ?db1] =>
      destruct (save valid true d db1) as [r db2] eqn:Hs;
      apply save_inv in Hs;
      destruct Hs as [[e [-> ->]] | [-> [_ [Hfarms [_ Hev]]]]]
  end.
  - simpl. auto.
  - simpl in *. split; [exact Hfarms|]. right.
    eexists. split; [exact Hev|].
    destruct (preSaveCompute_keeps
                {| _id := nextId db; farmId := farm_id farm; userId := None;
                   type := orElse (body_type (body req)) "manual"%string;
                   zones := orElse (body_zones (body req)) [ZoneAll];
                   duration := JS.or_default (body_duration (body req)) 30;
                   waterAmount_planned := None; waterAmount_actual := 0;
                   schedule_startTime := None; schedule_endTime := None;
                   schedule_actualStartTime := None;
                   schedule_actualEndTime := None;
                   status := running; trigger_reason := None;
                   settings_flowRate := 5; results_waterUsed := 0;
                   results_efficiency := None; results_moistureIncrease := [];
                   notes := None; cost_water := 0; cost_electricity := 0;
                   cost_fertilizer := 0; cost_total := 0 |})
      as [_ [Kf [Ks _]]].
    split; [exact Ks|].
    rewrite Kf. simpl. unfold runningFor.
    apply find_none_filter. exact Hfind.
Qed.

Lemma schedule_effect valid req db :
  farms (step valid db (Schedule req)) = farms db
  /\ (events (step valid db (Schedule req)) = events db
      \/ exists d,
           events (step valid db (Schedule req)) = events db ++ [d]
           /\ status d = pending).
Proof.
  unfold step, handle, scheduleIrrigation, bind.
  destruct (Farm_findByOptId_db (requestedFarm req) db) as [f Hf]. rewrite Hf.
  destruct f as [farm|]; [|simpl; auto].
  destruct (notAuthorized req farm); [simpl; auto|].
  unfold create.
  match goal with
  | |- context [save valid true ?d ?db1] =>
      destruct (save valid true d db1) as [r db2] eqn:Hs;
      apply save_inv in Hs;
      destruct Hs as [[e [-> ->]] | [-> [_ [Hfarms [_ Hev]]]]];
      [|pose proof (preSaveCompute_keeps d) as [_ [_ [Ks _]]]]
  end.
  - simpl. auto.
  - simpl in *. split; [exact Hfarms|]. right.
    eexists. split; [exact Hev | exact Ks].
Qed.

Lemma stop_effect valid req db :
  farms (step valid db (Stop req)) = farms db
  /\ (events (step valid db (Stop req)) = events db
      \/ exists e d,
           find (fun x => Nat.eqb (_id x) (params_eventId req)) (events db) = Some e
           /\ status e = running
           /\ _id d = _id e
           /\ status d = completed
           /\ updateById d (events db) = Some (events (step valid db (Stop req)))).
Proof.
  unfold step, handle, stopIrrigation, bind, findById, Farm_findById.
  destruct (find _ (events db)) as [event|] eqn:Hfind; [|simpl; auto].
  pose proof (preSaveCompute_keeps (set_status completed event))
    as [Ki [_ [Ks _]]].
  assert (Hsave : forall r db2,
             save valid false (set_status completed event) db = (r, db2) ->
             Status_eqb (status event) running = true ->
             farms db2 = farms db
             /\ (events db2 = events db
                 \/ exists e d,
                      Some event = Some e /\ status e = running
                      /\ _id d = _id e /\ status d = completed
                      /\ updateById d (events db) = Some (events db2))).
  { intros r db2 Hs Hrun. apply save_inv in Hs.
    destruct Hs as [[e [-> ->]] | [-> [_ [Hfarms [_ Hev]]]]]; [auto|].
    split; [exact Hfarms|]. right. exists event. eexists.
    split; [reflexivity|].
    split; [destruct (status event); simpl in Hrun; congruence|].
    split; [exact Ki|]. split; [exact Ks | exact Hev]. }
  destruct (find _ (farms db)) as [farm|].
  - destruct (notAuthorized req farm); [simpl; auto|].
    destruct (Status_eqb (status event) running) eqn:Hrun; [|simpl; auto].
    change (negb true) with false. cbv beta iota.
    destruct (save valid false (set_status completed event) db) as [r db2] eqn:Hs.
    destruct (Hsave r db2 eq_refl eq_refl) as [Hf He].
    destruct r; simpl; auto.
  - destruct (String.eqb _ _); [|simpl; auto].
    destruct (Status_eqb (status event) running) eqn:Hrun; [|simpl; auto].
    change (negb true) with false. cbv beta iota.
    destruct (save valid false (set_status completed event) db) as [r db2] eqn:Hs.
    destruct (Hsave r db2 eq_refl eq_refl) as [Hf He].
    destruct r; simpl; auto.
Qed.

(** The documents the handlers build carry neither [userId] nor a planned
    volume, a start time or a trigger reason, so the schema's own
    validation turns every one of them down.  The statements about the
    handlers are therefore made for any validation. *)
Lemma create_fails_schema (i : Input) (db : Db) :
  fst (create schemaValid i db) = inl ValidationError.
Proof.
  reflexivity.
Qed.

(** *** One running run per farm *)


Lemma step_farms valid db c : farms (step valid db c) = farms db.
Proof.
  destruct c as [req|req|req].
  - apply start_effect.
  - apply stop_effect.
  - apply schedule_effect.
Qed.







(** *** Terminal statuses *)

Lemma updateById_keeps_others id d e es es' :
  find (fun x => Nat.eqb (_id x) id) es = Some e ->
  _id d = id ->
  updateById d es = Some es' ->
  forall i x, nth_error es i = Some x -> x = e \/ nth_error es' i = Some x.
Proof.
  intros Hfind Hid. subst id. revert es' Hfind.
  induction es as [|a l IH]; intros es' Hfind Hu i x Hx; [discriminate|].
  simpl in Hfind, Hu.
  destruct (Nat.eqb (_id a) (_id d)).
  - injection Hfind as <-. injection Hu as <-.
    destruct i as [|i]; simpl in *; [left; congruence | right; exact Hx].
  - destruct (updateById d l) as [l'|]; [|discriminate].
    injection Hu as <-.
    destruct i as [|i]; simpl in *; [right; exact Hx|].
    exact (IH l' Hfind eq_refl i x Hx).
Qed.


Lemma nth_error_app_keep {A} (l : list A) (d : A) i x :
  nth_error l i = Some x -> nth_error (l ++ [d]) i = Some x.
Proof.
  intro H. rewrite nth_error_app1; [exact H|].
  apply nth_error_Some. congruence.
Qed.



Lemma completed_doc_fields now w rs this :
  status (completed_doc now w rs this) = completed
  /\ schedule_actualEndTime (completed_doc now w rs this) = Some now
  /\ (JS.truthy w = true ->
      forall q, w = Some q ->
      results_efficiency (completed_doc now w rs this)
      = Some (efficiencyOf q (waterAmount_planned this))).
Proof.
  unfold completed_doc.
  destruct w as [q|]; [destruct (JS.truthy (Some q))|];
    (destruct rs as [l|]; [destruct (Nat.ltb 0 (List.length l))|]);
    simpl; repeat split; intros; try discriminate;
    match goal with
    | H : Some _ = Some _ |- _ => injection H as <-; reflexivity
    end.
Qed.





(** *** The efficiency bound *)

Lemma schemaValid_efficiency d :
  schemaValid d = true -> efficiencyValid (results_efficiency d) = true.
Proof.
  unfold schemaValid. intro H.
  repeat (apply andb_true_iff in H; destruct H as [H ?]).
  assumption.
Qed.






End IrrigationFacts.

(** ** More on readings: score range, alerts, rejection, virtuals *)

Module SensorReadingMore.

Import SensorReading.

Local Open Scope Q_scope.

Lemma leb_compat_r a b c : b == c -> JS.leb a b = JS.leb a c.
Proof.
  intro H. unfold JS.leb.
  destruct (Qle_bool a b) eqn:E1, (Qle_bool a c) eqn:E2; try reflexivity.
  - apply Qle_bool_iff in E1. rewrite H in E1. apply Qle_bool_iff in E1. congruence.
  - apply Qle_bool_iff in E2. rewrite <- H in E2. apply Qle_bool_iff in E2. congruence.
Qed.

Lemma within_bounds lo hi x :
  within lo hi x = true <-> lo <= x /\ x <= hi.
Proof.
  unfold within, JS.leb. rewrite andb_true_iff, !Qle_bool_iff. reflexivity.
Qed.

(** What a successful [create] stored. *)
Lemma create_inv db now sid fid r ts d db' :
  create db now sid fid r ts = (Some d, db') ->
  validate r = true
  /\ db' = {| sensors := sensors db; collection := collection db ++ [d] |}
  /\ sensorId d = sid
  /\ readings d = r
  /\ quality d = qualityOfScore (qualityScore r)
  /\ alerts d = match findSensorById (sensors db) sid with
                | Some sensor => generateAlerts sensor r now
                | None => []
                end.
Proof.
  unfold create, save. simpl. intro H.
  destruct (validate r); [|discriminate].
  injection H as Hd Hdb. rewrite Hd in Hdb. subst db'.
  split; [reflexivity|]. split; [reflexivity|].
  subst d. unfold preSaveAlerts, preSaveQuality. simpl.
  destruct (findSensorById (sensors db) sid); simpl; repeat split.
Qed.

Lemma validate_moisture r :
  validate r = true ->
  JS.ltb (moistureLevel r) 0 = false /\ JS.gtb (moistureLevel r) 100 = false.
Proof.
  unfold validate. intro H.
  repeat (apply andb_true_iff in H; destruct H as [H ?]).
  match goal with
  | Hlo : JS.leb 0 (moistureLevel r) = true,
    Hhi : JS.leb (moistureLevel r) 100 = true |- _ =>
      apply Qle_bool_iff in Hlo; apply Qle_bool_iff in Hhi;
      split; [apply ltb_ge | apply gtb_le]; assumption
  end.
Qed.

(** X1. The quality score lies between 55 and 100, and a reading is rated poor
    exactly when all four deductions apply in full: a signal below -80
    dBm, a battery below 20%, and neither a temperature nor a humidity
    that counts as present. *)
Theorem quality_poor_iff_every_deduction :
  forall r : Readings,
    (55 <= qualityScore r <= 100)%Z
    /\ (qualityOfScore (qualityScore r) = poor
        <-> (exists s, signalStrength r = Some s /\ s < -80)
            /\ batteryLevel r < 20
            /\ JS.truthy (temperature r) = false
            /\ JS.truthy (humidity r) = false).
Proof.
  intro r. unfold qualityScore.
  destruct (signalStrength r) as [s|].
  - (destruct (JS.truthy (Some s)) eqn:Ts;
       [|apply SensorReadingFacts.truthy_Some in Ts]);
      (destruct (JS.ltb s (-80)) eqn:S80;
       [apply ltb_lt in S80 | apply ltb_ge in S80]);
      destruct (JS.ltb s (-70)) eqn:S70;
      (destruct (JS.ltb (batteryLevel r) 20) eqn:B20;
       [apply ltb_lt in B20 | apply ltb_ge in B20]);
      destruct (JS.ltb (batteryLevel r) 40) eqn:B40;
      destruct (JS.truthy (temperature r));
      destruct (JS.truthy (humidity r));
      simpl; (split; [lia|]);
      (split;
       [ intro H; try discriminate H;
         repeat split; try reflexivity; try assumption;
         exists s; (split; [reflexivity | assumption])
       | intros [[s' [Hs Hlt]] [Hb [Ht Hh]]]; try reflexivity;
         try congruence; exfalso; injection Hs as <-; lra ]).
  - (destruct (JS.ltb (batteryLevel r) 20) eqn:B20);
      destruct (JS.ltb (batteryLevel r) 40) eqn:B40;
      destruct (JS.truthy (temperature r));
      destruct (JS.truthy (humidity r));
      simpl; (split; [lia|]);
      (split; [intro H; discriminate H
              | intros [[s' [Hs _]] _]; discriminate Hs]).
Qed.

Ltac case_ifs :=
  repeat match goal with
         | |- context [if ?b then _ else _] => destruct b eqn:?
         end.

Lemma validate_bounds r :
  validate r = true ->
  (0 <= moistureLevel r /\ moistureLevel r <= 100)
  /\ (0 <= batteryLevel r /\ batteryLevel r <= 100).
Proof.
  unfold validate. intro H.
  repeat (apply andb_true_iff in H; destruct H as [H ?]).
  repeat match goal with
         | Hb : JS.leb _ _ = true |- _ => apply Qle_bool_iff in Hb
         | Hb : within _ _ _ = true |- _ => apply within_bounds in Hb
         end.
  repeat split; tauto.
Qed.

(** X2. A stored reading never carries a sensor_error alert (validation has
    already turned away the moistures the check looks for), never both a
    low- and a high-moisture alert, and never more than three alerts. *)
Theorem stored_alerts_are_consistent :
  forall db now sid fid r ts d db',
    create db now sid fid r ts = (Some d, db') ->
    hasAlert sensor_error d = false
    /\ hasAlert low_moisture d && hasAlert high_moisture d = false
    /\ (List.length (alerts d) <= 3)%nat.
Proof.
  intros db now sid fid r ts d db' H.
  apply create_inv in H. destruct H as [Hv [_ [_ [_ [_ Ha]]]]].
  destruct (validate_moisture r Hv) as [Hlo Hhi].
  unfold hasAlert. rewrite Ha.
  destruct (findSensorById (sensors db) sid) as [sensor|];
    [|repeat split; simpl; lia].
  unfold generateAlerts. rewrite Hlo, Hhi. simpl orb. cbv iota.
  case_ifs; simpl; repeat split; lia.
Qed.

Lemma stored_alerts_are_consistent_witness :
  exists d,
    fst (create Scenario.readingsDb0 1000 1 7 (Scenario.dryReading 20) None)
    = Some d
    /\ hasAlert sensor_error d = false
    /\ (List.length (alerts d) <= 3)%nat.
Proof.
  eexists. split; [reflexivity|].
  destruct (stored_alerts_are_consistent Scenario.readingsDb0 1000 1 7
              (Scenario.dryReading 20) None _ _ eq_refl) as [H1 [_ H3]].
  split; [exact H1 | exact H3].
Defined.

(** X3. A reading whose moisture or battery level is outside [0,100] is turned
    away by [create]: nothing is returned and the database is unchanged. *)
Theorem out_of_range_reading_is_not_stored :
  forall db now sid fid r ts,
    moistureLevel r < 0 \/ 100 < moistureLevel r
    \/ batteryLevel r < 0 \/ 100 < batteryLevel r ->
    create db now sid fid r ts = (None, db).
Proof.
  intros db now sid fid r ts H.
  unfold create, save. simpl.
  destruct (validate r) eqn:Hv; [|reflexivity].
  exfalso. apply validate_bounds in Hv. lra.
Qed.

Lemma out_of_range_reading_is_not_stored_witness :
  create Scenario.readingsDb1 2000 1 7 (Scenario.dryReading 120) None
  = (None, Scenario.readingsDb1).
Proof.
  apply out_of_range_reading_is_not_stored.
  right. left. reflexivity.
Defined.

(** X4. With the schema's default thresholds on the sensor (moisture low 30,
    battery 20, both enabled) the alerts of a stored reading agree with
    its status virtuals: it carries a low_moisture alert exactly when
    [moistureStatus] is critical and a low_battery alert exactly when
    [batteryStatus] is critical. *)
Theorem default_alerts_match_status_virtuals :
  forall db now sid fid r ts d db' sensor,
    create db now sid fid r ts = (Some d, db') ->
    findSensorById (sensors db) sid = Some sensor ->
    moistureThreshold_enabled sensor = true ->
    moistureThreshold_low sensor == 30 ->
    lowBattery_enabled sensor = true ->
    lowBattery_threshold sensor == 20 ->
    (hasAlert low_moisture d = true <-> moistureStatus d = "critical"%string)
    /\ (hasAlert low_battery d = true <-> batteryStatus d = "critical"%string).
Proof.
  intros db now sid fid r ts d db' sensor H Hs Hme Hml Hbe Hbt.
  apply create_inv in H. destruct H as [Hv [_ [_ [Hr [_ Ha]]]]].
  destruct (validate_moisture r Hv) as [Hlo Hhi].
  unfold hasAlert, moistureStatus, batteryStatus. rewrite Ha, Hs, Hr.
  unfold generateAlerts. rewrite Hme, Hbe, Hlo, Hhi.
  rewrite (leb_compat_r _ _ _ Hml), (leb_compat_r _ _ _ Hbt).
  simpl orb. cbv iota zeta.
  case_ifs; simpl; split; split; intro; congruence.
Qed.

Lemma default_alerts_match_status_virtuals_witness :
  exists d,
    fst (create Scenario.readingsDb0 1000 1 7 (Scenario.dryReading 20) None)
    = Some d
    /\ hasAlert low_moisture d = true
    /\ moistureStatus d = "critical"%string.
Proof.
  eexists. split; [reflexivity|].
  destruct (default_alerts_match_status_virtuals Scenario.readingsDb0 1000 1 7
              (Scenario.dryReading 20) None _ _ Scenario.sensor1
              eq_refl eq_refl eq_refl (Qeq_refl _) eq_refl (Qeq_refl _))
    as [[_ Hm] _].
  split; [apply Hm|]; reflexivity.
Defined.


End SensorReadingMore.

(** ** More on the recommendation: parameters, rain, weighting *)

Module AiServiceMore.

Import AiService.

Local Open Scope Q_scope.

Lemma analyzeMoisture_no_parameters m t :
  duration (analyzeMoisture m t initial) = None
  /\ waterAmount (analyzeMoisture m t initial) = None
  /\ zones (analyzeMoisture m t initial) = [].
Proof.
  unfold analyzeMoisture.
  destruct (JS.ltb m (t * 0.4)); [repeat split|].
  destruct (JS.ltb m (t * 0.6)); [repeat split|].
  destruct (JS.ltb m (t * 0.8)); repeat split.
Qed.

Lemma analyzeWeather_no_parameters weatherData r :
  duration (analyzeWeather weatherData r) = duration r
  /\ waterAmount (analyzeWeather weatherData r) = waterAmount r
  /\ zones (analyzeWeather weatherData r) = zones r.
Proof.
  destruct weatherData as [w|]; [|repeat split].
  unfold analyzeWeather.
  destruct (JS.gtb (humidity (current w)) 85);
    destruct (rainExpected w);
    destruct (JS.gtb (temperature (current w)) 35); repeat split.
Qed.

Lemma clamp_10_60 y : 10 <= JS.min 60 (JS.max 10 y) <= 60.
Proof.
  destruct (max_lub 10 y) as [H10 _].
  destruct (min_glb 60 (JS.max 10 y)) as [H60 _].
  split; [|exact H60].
  unfold JS.min. destruct (Qle_bool 60 (JS.max 10 y)); [lra | exact H10].
Qed.

(** X5. The parameters follow the final action.  For irrigate_now and
    irrigate_soon the recommendation carries a duration between 10 and 60
    minutes, five litres of water per minute and at least one zone; for
    none, postpone and also schedule_irrigation (whose name does not
    contain "irrigate") it carries no duration, no water amount and no
    zone. *)
Theorem parameters_follow_action :
  forall sensorData weatherData farmSettings,
    sensorData <> [] ->
    exists r,
      generateIrrigationRecommendation sensorData weatherData farmSettings
      = Some (Success r)
      /\ (action r = irrigate_now \/ action r = irrigate_soon ->
          exists d,
            duration r = Some d /\ 10 <= d <= 60
            /\ waterAmount r = Some (d * 5)
            /\ zones r <> [])
      /\ (action r = none \/ action r = schedule_irrigation
          \/ action r = postpone ->
          duration r = None /\ waterAmount r = None /\ zones r = []).
Proof.
  intros sensorData weatherData farmSettings Hne.
  eexists. split; [apply AiServiceFacts.generate_nonempty; exact Hne|].
  simpl. unfold unweighted. cbv zeta.
  set (m := avgMoisture sensorData). set (t := targetOf farmSettings).
  set (x := analyzeWeather weatherData (analyzeMoisture m t initial)).
  assert (Hx : duration x = None /\ waterAmount x = None /\ zones x = []).
  { subst x.
    destruct (analyzeWeather_no_parameters weatherData (analyzeMoisture m t initial))
      as [-> [-> ->]].
    apply analyzeMoisture_no_parameters. }
  destruct Hx as [Hd [Hw Hz]].
  unfold irrigationParameters.
  destruct (action x) eqn:Ha;
    match goal with
    | |- context [includes ?a ?b] =>
        let v := eval vm_compute in (includes a b) in
        change (includes a b) with v
    end;
    cbv iota.
  1, 4, 5:
    simpl; rewrite ?Ha;
    (split; [intros [H|H]; discriminate H | intros _; repeat split; assumption]).
  all:
    destruct (Nat.eqb _ _) eqn:E; simpl; rewrite ?Ha;
    (split; [intros _ | intros [H|[H|H]]; discriminate H]);
    eexists; (split; [reflexivity|]);
    (split; [apply clamp_10_60|]); (split; [reflexivity|]).
  all: try discriminate.
  all: intro Hnil; rewrite Hnil in E; discriminate E.
Qed.

Lemma parameters_follow_action_witness :
  exists r,
    generateIrrigationRecommendation [Scenario.reading 20 SensorReading.good]
      None Scenario.target80 = Some (Success r)
    /\ exists d, duration r = Some d /\ 10 <= d <= 60.
Proof.
  destruct (parameters_follow_action
              [Scenario.reading 20 SensorReading.good] None Scenario.target80)
    as [r [Hr [Hirr _]]]; [discriminate|].
  exists r. split; [exact Hr|].
  destruct Hirr as [d [Hd [Hrange _]]].
  - left. injection Hr as <-. reflexivity.
  - exists d. split; assumption.
Defined.







End AiServiceMore.

(** ** The seven-day schedule *)

Module IrrigationScheduleFacts.

Import IrrigationSchedule.

Local Open Scope Q_scope.

Section Loop.

Variable A : Type.
Variable g : nat -> DayForecast -> A.

Lemma loop_past_the_end forecast n k :
  (List.length forecast <= k)%nat ->
  flat_map
    (fun day =>
       match nth_error forecast day with
       | Some dayForecast => [g day dayForecast]
       | None => []
       end)
    (seq k n) = [].
Proof.
  revert k. induction n as [|n IH]; intros k Hk; [reflexivity|].
  simpl.
  assert (E : nth_error forecast k = None) by (apply nth_error_None; exact Hk).
  rewrite E. simpl. apply IH. lia.
Qed.

Lemma loop_by_index pre forecast n :
  flat_map
    (fun day =>
       match nth_error (pre ++ forecast) day with
       | Some dayForecast => [g day dayForecast]
       | None => []
       end)
    (seq (List.length pre) n)
  = map (fun p => g (fst p) (snd p)) (combine (seq (List.length pre) n) forecast).
Proof.
  revert pre forecast. induction n as [|n IH]; intros pre forecast;
    [reflexivity|].
  destruct forecast as [|f l].
  - rewrite app_nil_r. simpl combine. simpl map.
    apply loop_past_the_end. lia.
  - simpl.
    rewrite nth_error_app2, Nat.sub_diag by lia. simpl.
    f_equal.
    replace (pre ++ f :: l) with ((pre ++ [f]) ++ l)
      by (rewrite <- app_assoc; reflexivity).
    replace (S (List.length pre)) with (List.length (pre ++ [f]))
      by (rewrite length_app; simpl; lia).
    apply IH.
Qed.

End Loop.

Lemma combine_seq_nth {B} (l : list B) n k i a f :
  nth_error (combine (seq k n) l) i = Some (a, f) ->
  a = (k + i)%nat /\ nth_error l i = Some f.
Proof.
  revert k l i. induction n as [|n IH]; intros k l i H.
  - destruct i; discriminate H.
  - destruct l as [|x l]; [destruct i; discriminate H|].
    destruct i as [|i]; simpl in H.
    + injection H as <- <-. split; [lia | reflexivity].
    + apply IH in H. destruct H as [-> H]. split; [lia | exact H].
Qed.

Lemma predictDay_facts now day f :
  let p := predictDay now day f in
  date p = (now + Z.of_nat day * msPerDay)%Z
  /\ (irrigationNeeded p = true <-> rainfall f <= 3 /\ 30 < heatIndexOf f)
  /\ 30 <= duration p <= 55
  /\ 0.5 <= confidence p <= 0.9.
Proof.
  unfold predictDay.
  destruct (JS.gtb (rainfall f) 3) eqn:R;
    [apply gtb_gt in R | apply gtb_le in R].
  - simpl. split; [reflexivity|].
    split; [split; [discriminate | intros [H _]; lra]|].
    split; lra.
  - destruct (JS.gtb (heatIndexOf f) 35) eqn:H35;
      [apply gtb_gt in H35 | apply gtb_le in H35];
      (destruct (JS.gtb (heatIndexOf f) 30) eqn:H30;
       [apply gtb_gt in H30 | apply gtb_le in H30]);
      destruct (JS.gtb (windSpeed f) 15); simpl;
      (split; [reflexivity|]);
      (split; [split; [intro H; try discriminate H; split; lra
                      | intros [_ H]; try reflexivity; lra]|]);
      split; lra.
Qed.

(** X8. The schedule has one prediction per forecast day for at most seven
    days, in order and dated a day apart from now.  A day is marked for
    irrigation exactly when it has at most 3 mm of rain and a heat index
    above 30; the duration is between 30 and 55 minutes and the
    confidence between 0.5 and 0.9. *)
Theorem schedule_follows_forecast :
  forall now forecast,
    exists schedule,
      predictIrrigationSchedule now (Some forecast)
      = Success schedule now (now + msPerDay)%Z
      /\ List.length schedule = Nat.min 7 (List.length forecast)
      /\ forall day p,
           nth_error schedule day = Some p ->
           exists f,
             nth_error forecast day = Some f
             /\ date p = (now + Z.of_nat day * msPerDay)%Z
             /\ (irrigationNeeded p = true
                 <-> rainfall f <= 3 /\ 30 < heatIndexOf f)
             /\ 30 <= duration p <= 55
             /\ 0.5 <= confidence p <= 0.9.
Proof.
  intros now forecast. eexists. split; [reflexivity|].
  pose proof (loop_by_index Prediction (predictDay now) [] forecast 7) as E.
  simpl List.length in E. rewrite app_nil_l in E.
  unfold daysToPredict. rewrite E. clear E.
  split.
  - rewrite length_map, length_combine, length_seq. reflexivity.
  - intros day p Hp.
    rewrite nth_error_map in Hp.
    destruct (nth_error (combine (seq 0 7) forecast) day) as [[a f]|] eqn:Hc;
      [|discriminate Hp].
    simpl in Hp. injection Hp as <-.
    apply combine_seq_nth in Hc. destruct Hc as [-> Hf]. simpl.
    exists f. split; [exact Hf|]. apply predictDay_facts.
Qed.

End IrrigationScheduleFacts.

(** ** Crop health *)

Module CropHealthFacts.

Import CropHealth.

Local Open Scope Q_scope.



End CropHealthFacts.

(** ** More on the irrigation run: what a save guarantees, virtuals,
       unguarded methods, request handlers *)

Module IrrigationMore.

Import IrrigationEvent IrrigationController.

Local Open Scope Q_scope.

Lemma preSaveCompute_frame d :
  zones (preSaveCompute d) = zones d
  /\ results_waterUsed (preSaveCompute d) = results_waterUsed d
  /\ schedule_actualStartTime (preSaveCompute d) = schedule_actualStartTime d
  /\ schedule_startTime (preSaveCompute d) = schedule_startTime d
  /\ notes (preSaveCompute d) = notes d
  /\ cost_water (preSaveCompute d) = cost_water d
  /\ cost_electricity (preSaveCompute d) = cost_electricity d
  /\ cost_fertilizer (preSaveCompute d) = cost_fertilizer d.
Proof.
  unfold preSaveCompute.
  destruct (schedule_startTime d) as [s|] eqn:Es,
      (schedule_endTime d) as [e|] eqn:Ee;
    try destruct (JS.truthy (Some (duration d)));
    simpl;
    repeat match goal with
           | |- context [if ?b then _ else _] => destruct b
           end;
    simpl; repeat split; assumption.
Qed.

Lemma preSaveCompute_planned d :
  JS.truthy (waterAmount_planned d) = true ->
  waterAmount_planned (preSaveCompute d) = waterAmount_planned d.
Proof.
  intro H. unfold preSaveCompute.
  destruct (schedule_startTime d) as [s|], (schedule_endTime d) as [e|];
    try destruct (JS.truthy (Some (duration d)));
    simpl; rewrite H; reflexivity.
Qed.









(** *** The zones hook *)

Lemma save_hook valid isNew d db d' db' :
  save valid isNew d db = (inr d', db') ->
  preSaveZones (preSaveCompute d) db = (inr tt, db).
Proof.
  unfold save. intro H.
  destruct (valid d); [|discriminate].
  destruct (IrrigationFacts.preSaveZones_db (preSaveCompute d) db) as [z Hz].
  rewrite Hz in *. destruct z as [e|[]]; [discriminate | reflexivity].
Qed.

Lemma filter_nil_forallb {A} (f : A -> bool) (l : list A) :
  filter (fun x => negb (f x)) l = [] -> forallb f l = true.
Proof.
  induction l as [|a l IH]; [reflexivity|]. simpl.
  destruct (f a); simpl; [exact IH | discriminate].
Qed.

Lemma preSaveZones_ok d db :
  preSaveZones d db = (inr tt, db) ->
  exists farm,
    find (fun f => Nat.eqb (farm_id f) (farmId d)) (farms db) = Some farm
    /\ forallb (zoneInFarm (location_zones farm)) (zones d) = true.
Proof.
  unfold preSaveZones, bind, Farm_findById.
  destruct (find _ (farms db)) as [farm|]; [|discriminate].
  destruct (filter _ (zones d)) as [|z zs] eqn:E; [|discriminate].
  intros _. exists farm. split; [reflexivity|].
  apply filter_nil_forallb. exact E.
Qed.

(** X11. Whatever the validation, a run that is stored refers to a farm that
    exists, and each of its zones is a number that is the id of a zone of
    that farm. *)
Theorem saved_run_zones_belong_to_farm :
  forall valid isNew d db d' db',
    save valid isNew d db = (inr d', db') ->
    exists farm,
      fst (Farm_findById (farmId d') db) = inr (Some farm)
      /\ forall z, In z (zones d') ->
           exists n, z = ZoneNum n /\ In n (location_zones farm).
Proof.
  intros valid isNew d db d' db' H.
  pose proof (save_hook _ _ _ _ _ _ H) as Hh.
  apply IrrigationFacts.save_inv in H.
  destruct H as [[e [He _]] | [Hd _]]; [discriminate|].
  injection Hd as ->.
  apply preSaveZones_ok in Hh. destruct Hh as [farm [Hf Hz]].
  exists farm. split; [unfold Farm_findById; cbn [fst]; rewrite Hf; reflexivity|].
  intros z Hin. rewrite forallb_forall in Hz. specialize (Hz z Hin).
  destruct z as [n|]; simpl in Hz; [|discriminate].
  exists n. split; [reflexivity|].
  apply existsb_exists in Hz. destruct Hz as [m [Hm Heq]].
  apply Z.eqb_eq in Heq. subst m. exact Hm.
Qed.

Lemma saved_run_zones_belong_to_farm_witness :
  exists d' db' farm,
    save Scenario.anyDoc false (Scenario.run1 running)
      (Scenario.irrigationDb [Scenario.run1 running]) = (inr d', db')
    /\ fst (Farm_findById (farmId d')
              (Scenario.irrigationDb [Scenario.run1 running]))
       = inr (Some farm).
Proof.
  eexists. eexists.
  destruct (saved_run_zones_belong_to_farm Scenario.anyDoc false
              (Scenario.run1 running)
              (Scenario.irrigationDb [Scenario.run1 running]) _ _ eq_refl)
    as [farm [Hf _]].
  exists farm. split; [reflexivity | exact Hf].
Defined.

(** *** The efficiency virtual *)

(** X12. After [complete] with a water volume has gone through under the
    schema's validation, the [waterEfficiency] virtual of the stored run is
    defined and is the stored results.efficiency, a whole percentage
    between 0 and 100. *)
Theorem waterEfficiency_is_stored_efficiency :
  forall db this now w rs d db',
    JS.truthy (Some w) = true ->
    complete schemaValid now (Some w) rs this db = (inr d, db') ->
    exists z,
      waterEfficiency d = Some z
      /\ results_efficiency d = Some (JS.Fin (inject_Z z))
      /\ (0 <= z <= 100)%Z.
Proof.
  intros db this now w rs d db' Hw H.
  unfold complete in H. apply IrrigationFacts.save_inv in H.
  destruct H as [[e [He _]] | [Hd [Hv _]]]; [discriminate|].
  injection Hd as ->.
  destruct (IrrigationFacts.completed_doc_fields now (Some w) rs this)
    as [_ [_ Ceff]].
  specialize (Ceff Hw w eq_refl).
  pose proof (IrrigationFacts.schemaValid_efficiency _ Hv) as Hev.
  rewrite Ceff in Hev. cbn [efficiencyValid] in Hev.
  assert (Hused : results_waterUsed (completed_doc now (Some w) rs this) = w).
  { unfold completed_doc. rewrite Hw.
    destruct rs as [l|]; [destruct (Nat.ltb 0 (List.length l))|]; reflexivity. }
  assert (Hplanned : waterAmount_planned (completed_doc now (Some w) rs this)
                     = waterAmount_planned this).
  { unfold completed_doc. rewrite Hw.
    destruct rs as [l|]; [destruct (Nat.ltb 0 (List.length l))|]; reflexivity. }
  destruct (waterAmount_planned this) as [p|] eqn:Hp; [|discriminate Hev].
  unfold efficiencyOf, JS.div in Hev, Ceff.
  destruct (Qeq_bool p 0) eqn:Hp0.
  { destruct (Qeq_bool w 0); [discriminate Hev|].
    destruct (JS.ltb 0 w); discriminate Hev. }
  assert (Tp : JS.truthy (Some p) = true) by (simpl; rewrite Hp0; reflexivity).
  destruct (IrrigationFacts.preSaveCompute_keeps
              (completed_doc now (Some w) rs this)) as [_ [_ [_ [Ke _]]]].
  destruct (preSaveCompute_frame (completed_doc now (Some w) rs this))
    as [_ [Ku _]].
  exists (JS.round (w / p * 100)).
  split.
  - unfold waterEfficiency.
    rewrite preSaveCompute_planned by (rewrite Hplanned; exact Tp).
    rewrite Hplanned, Ku, Hused, Tp, Hw. reflexivity.
  - split; [rewrite Ke, Ceff; reflexivity|].
    assert (Hev' : JS.leb (inject_Z 0) (inject_Z (JS.round (w / p * 100)))
                   && JS.leb (inject_Z (JS.round (w / p * 100))) (inject_Z 100)
                   = true) by exact Hev.
    apply andb_true_iff in Hev'. destruct Hev' as [Hlo Hhi].
    unfold JS.leb in Hlo, Hhi.
    apply Qle_bool_iff in Hlo. apply Qle_bool_iff in Hhi.
    rewrite <- Zle_Qle in Hlo, Hhi. lia.
Qed.

Lemma waterEfficiency_is_stored_efficiency_witness :
  exists d db' z,
    complete schemaValid 5000 (Some 100) None (Scenario.run1 running)
      (Scenario.irrigationDb [Scenario.run1 running]) = (inr d, db')
    /\ waterEfficiency d = Some z
    /\ results_efficiency d = Some (JS.Fin (inject_Z z)).
Proof.
  eexists. eexists.
  destruct (waterEfficiency_is_stored_efficiency
              (Scenario.irrigationDb [Scenario.run1 running])
              (Scenario.run1 running) 5000 100 None _ _ eq_refl eq_refl)
    as [z [Hz [He _]]].
  exists z. split; [reflexivity|]. split; assumption.
Defined.


(** *** Model methods without a status check *)

Lemma updateById_count id d e es es' (f : Doc -> bool) :
  find (fun x => Nat.eqb (_id x) id) es = Some e ->
  _id d = id ->
  updateById d es = Some es' ->
  (List.length (filter f es') + (if f e then 1 else 0)
   = List.length (filter f es) + (if f d then 1 else 0))%nat.
Proof.
  intros Hfind Hid. subst id. revert es' Hfind.
  induction es as [|a l IH]; intros es' Hfind Hu; [discriminate|].
  simpl in Hfind, Hu.
  destruct (Nat.eqb (_id a) (_id d)).
  - injection Hfind as <-. injection Hu as <-. simpl.
    destruct (f a), (f d); simpl; lia.
  - destruct (updateById d l) as [l'|]; [|discriminate].
    injection Hu as <-. specialize (IH l' Hfind eq_refl). simpl.
    destruct (f a); simpl; lia.
Qed.

(** X13. [start] tests nothing.  Called on a stored run that is not running,
    it stores the run as running with actualStart stamped whenever its
    save goes through, and the number of running runs of the farm goes up
    by one, whether or not the farm already had a running run. *)
Theorem start_adds_a_running_run :
  forall valid now this db d db' e,
    fst (findById (_id this) db) = inr (Some e) ->
    status e <> running ->
    start valid now this db = (inr d, db') ->
    status d = running
    /\ schedule_actualStartTime d = Some now
    /\ List.length (runningFor (farmId this) db')
       = S (List.length (runningFor (farmId this) db)).
Proof.
  intros valid now this db d db' e He Hs H.
  unfold findById in He. simpl in He. injection He as He.
  unfold start in H. apply IrrigationFacts.save_inv in H.
  destruct H as [[err [Herr _]] | [Hd [_ [_ [_ Hu]]]]]; [discriminate|].
  injection Hd as Hd.
  set (this' := set_actualStartTime now (set_status running this)) in *.
  destruct (IrrigationFacts.preSaveCompute_keeps this') as [Ki [Kf [Ks _]]].
  destruct (preSaveCompute_frame this') as [_ [_ [Ka _]]].
  rewrite <- Hd in Hu. subst d.
  split; [rewrite Ks; reflexivity|].
  split; [rewrite Ka; reflexivity|].
  pose proof (updateById_count (_id this) (preSaveCompute this') e _ _
                (fun x => Nat.eqb (farmId x) (farmId this)
                          && Status_eqb (status x) running)
                He Ki Hu) as Hc.
  cbv beta in Hc. rewrite Kf, Ks in Hc.
  change (farmId this') with (farmId this) in Hc.
  change (status this') with running in Hc.
  rewrite Nat.eqb_refl in Hc. simpl in Hc.
  assert (Hnot : Status_eqb (status e) running = false)
    by (destruct (status e); try reflexivity; congruence).
  rewrite Hnot, andb_false_r in Hc.
  unfold runningFor. lia.
Qed.

Lemma start_adds_a_running_run_witness :
  exists d db',
    start Scenario.anyDoc 7000 (Scenario.run1 pending)
      (Scenario.irrigationDb [Scenario.run1 pending]) = (inr d, db')
    /\ status d = running
    /\ List.length (runningFor 1 db') = 1%nat.
Proof.
  eexists. eexists. split; [reflexivity|].
  edestruct (start_adds_a_running_run Scenario.anyDoc 7000
               (Scenario.run1 pending)
               (Scenario.irrigationDb [Scenario.run1 pending]))
    as [Hs [_ Hc]]; [reflexivity | discriminate | reflexivity |].
  split; [exact Hs | exact Hc].
Defined.

Lemma completed_doc_keeps_start now w rs this :
  schedule_actualStartTime (completed_doc now w rs this)
  = schedule_actualStartTime this.
Proof.
  unfold completed_doc.
  destruct w as [q|]; [destruct (JS.truthy (Some q))|];
    (destruct rs as [l|]; [destruct (Nat.ltb 0 (List.length l))|]);
    reflexivity.
Qed.

(** X14. A run started at [t0] and then completed at [t1], both saves going
    through, has as [actualDuration] the difference in minutes, rounded;
    it is not negative when [t1] is not before [t0]. *)
Theorem actualDuration_of_started_and_completed_run :
  forall valid t0 t1 w rs this db d1 db1 d2 db2,
    start valid t0 this db = (inr d1, db1) ->
    complete valid t1 w rs d1 db1 = (inr d2, db2) ->
    actualDuration d2 = Some (JS.round (inject_Z (t1 - t0) / (1000 * 60)))
    /\ ((t0 <= t1)%Z ->
        (0 <= JS.round (inject_Z (t1 - t0) / (1000 * 60)))%Z).
Proof.
  intros valid t0 t1 w rs this db d1 db1 d2 db2 H1 H2.
  unfold start in H1. apply IrrigationFacts.save_inv in H1.
  destruct H1 as [[err [Herr _]] | [Hd1 _]]; [discriminate|].
  injection Hd1 as ->.
  unfold complete in H2. apply IrrigationFacts.save_inv in H2.
  destruct H2 as [[err [Herr _]] | [Hd2 _]]; [discriminate|].
  injection Hd2 as ->.
  split.
  - unfold actualDuration.
    match goal with
    | |- context [preSaveCompute (completed_doc t1 w rs ?x)] =>
        destruct (IrrigationFacts.preSaveCompute_keeps (completed_doc t1 w rs x))
          as [_ [_ [_ [_ Ke]]]];
        destruct (preSaveCompute_frame (completed_doc t1 w rs x))
          as [_ [_ [Ka _]]];
        destruct (IrrigationFacts.completed_doc_fields t1 w rs x)
          as [_ [Ce _]];
        rewrite Ke, Ka, Ce, completed_doc_keeps_start
    end.
    match goal with
    | |- context [preSaveCompute ?x] =>
        destruct (preSaveCompute_frame x) as [_ [_ [Ka' _]]]; rewrite Ka'
    end.
    reflexivity.
  - intro Hle.
    change 0%Z with (JS.round 0). apply round_mono.
    apply Qle_shift_div_l; [reflexivity|].
    rewrite Qmult_0_l. change 0 with (inject_Z 0). rewrite <- Zle_Qle. lia.
Qed.

Lemma actualDuration_of_started_and_completed_run_witness :
  exists d1 db1 d2 db2,
    start Scenario.anyDoc 0 (Scenario.run1 pending)
      (Scenario.irrigationDb [Scenario.run1 pending]) = (inr d1, db1)
    /\ complete Scenario.anyDoc 1800000 None None d1 db1 = (inr d2, db2)
    /\ actualDuration d2 = Some 30%Z.
Proof.
  eexists. eexists. eexists. eexists.
  split; [vm_compute; reflexivity|]. split; [vm_compute; reflexivity|].
  edestruct (actualDuration_of_started_and_completed_run Scenario.anyDoc
               0 1800000 None None (Scenario.run1 pending)
               (Scenario.irrigationDb [Scenario.run1 pending]))
    as [Hd _]; [vm_compute; reflexivity | vm_compute; reflexivity |].
  exact Hd.
Defined.


(** *** Request handlers *)

Lemma stop_success_inv valid req db resp db' :
  stopIrrigation valid req db = (inr resp, db') ->
  exists e,
    find (fun x => Nat.eqb (_id x) (params_eventId req)) (events db) = Some e
    /\ status e = running
    /\ res_event resp = preSaveCompute (set_status completed e)
    /\ updateById (res_event resp) (events db) = Some (events db')
    /\ res_status resp = 200%Z.
Proof.
  unfold stopIrrigation, bind, findById, Farm_findById.
  destruct (find _ (events db)) as [event|] eqn:Hfind; [|discriminate].
  destruct (find _ (farms db)) as [farm|].
  - destruct (notAuthorized req farm); [discriminate|].
    destruct (Status_eqb (status event) running) eqn:Hrun; [|discriminate].
    change (negb true) with false. cbv beta iota.
    destruct (save valid false (set_status completed event) db) as [r db2] eqn:Hs.
    apply IrrigationFacts.save_inv in Hs.
    destruct Hs as [[e [-> ->]] | [-> [_ [_ [_ Hu]]]]]; [discriminate|].
    unfold ret. intro H. injection H as <- <-.
    exists event. split; [reflexivity|].
    split; [destruct (status event); simpl in Hrun; congruence|].
    repeat split. exact Hu.
  - destruct (String.eqb _ _); [|discriminate].
    destruct (Status_eqb (status event) running) eqn:Hrun; [|discriminate].
    change (negb true) with false. cbv beta iota.
    destruct (save valid false (set_status completed event) db) as [r db2].
    destruct r; discriminate.
Qed.

(** X15. When the farm has at most one running run, a stop request that
    succeeds stores the run as completed and leaves the farm without any
    running run, so that the next start request for the farm is not turned
    away as active. *)
Theorem stop_frees_the_farm :
  forall valid req db resp db',
    singleRunning db ->
    stopIrrigation valid req db = (inr resp, db') ->
    status (res_event resp) = completed
    /\ runningFor (farmId (res_event resp)) db' = []
    /\ fst (findOne (farmId (res_event resp)) running db') = inr None.
Proof.
  intros valid req db resp db' Hinv H.
  apply stop_success_inv in H.
  destruct H as [e [Hfind [Hrun [Hev [Hu _]]]]].
  destruct (IrrigationFacts.preSaveCompute_keeps (set_status completed e))
    as [Ki [Kf [Ks _]]].
  assert (Hid : _id (res_event resp) = params_eventId req).
  { rewrite Hev, Ki. apply find_some in Hfind. destruct Hfind as [_ Hid].
    apply Nat.eqb_eq in Hid. exact Hid. }
  assert (Hnil : runningFor (farmId (res_event resp)) db' = []).
  { pose proof (updateById_count _ (res_event resp) e _ _
                  (fun x => Nat.eqb (farmId x) (farmId (res_event resp))
                            && Status_eqb (status x) running)
                  Hfind Hid Hu) as Hc.
    cbv beta in Hc.
    assert (Hfe : farmId (res_event resp) = farmId e)
      by (rewrite Hev, Kf; reflexivity).
    assert (Hsd : status (res_event resp) = completed)
      by (rewrite Hev, Ks; reflexivity).
    rewrite Hsd, Hrun, Hfe, Nat.eqb_refl in Hc. simpl in Hc.
    specialize (Hinv (farmId e)). unfold runningFor in *.
    rewrite Hfe.
    destruct (filter _ (events db')) as [|x l]; [reflexivity|].
    simpl in Hc. lia. }
  split; [rewrite Hev, Ks; reflexivity|].
  split; [exact Hnil|].
  unfold findOne. cbn [fst]. unfold runningFor in Hnil.
  destruct (find _ (events db')) as [y|] eqn:Hy; [|reflexivity].
  apply find_some in Hy. destruct Hy as [Hin Hy].
  assert (Hmem : In y (filter
                         (fun e0 => Nat.eqb (farmId e0) (farmId (res_event resp))
                                    && Status_eqb (status e0) running)
                         (events db')))
    by (apply filter_In; split; assumption).
  rewrite Hnil in Hmem. contradiction.
Qed.

Lemma stop_frees_the_farm_witness :
  exists resp db',
    stopIrrigation Scenario.anyDoc (Scenario.ownerRequest 0)
      (Scenario.irrigationDb [Scenario.run1 running]) = (inr resp, db')
    /\ runningFor 1 db' = [].
Proof.
  eexists. eexists. split; [vm_compute; reflexivity|].
  edestruct (stop_frees_the_farm Scenario.anyDoc (Scenario.ownerRequest 0)
               (Scenario.irrigationDb [Scenario.run1 running]))
    as [_ [Hnil _]];
    [ intro fid; unfold runningFor, Scenario.irrigationDb;
      cbn [events filter]; destruct (_ && _); simpl; lia
    | vm_compute; reflexivity |].
  exact Hnil.
Defined.

Lemma step_keeps_not_running valid db c i e :
  nth_error (events db) i = Some e ->
  status e <> running ->
  nth_error (events (step valid db c)) i = Some e.
Proof.
  intros Hi Ht. destruct c as [req|req|req].
  - destruct (IrrigationFacts.start_effect valid req db)
      as [_ [-> | [d [-> _]]]];
      [exact Hi | apply IrrigationFacts.nth_error_app_keep, Hi].
  - destruct (IrrigationFacts.stop_effect valid req db)
      as [_ [-> | [ev [d [Hfind [Hrun [Hid [_ Hu]]]]]]]]; [exact Hi|].
    assert (Hidd : _id d = params_eventId req).
    { rewrite Hid. apply find_some in Hfind. destruct Hfind as [_ H].
      apply Nat.eqb_eq in H. exact H. }
    destruct (IrrigationFacts.updateById_keeps_others _ d ev _ _ Hfind Hidd Hu i e Hi)
      as [-> | H]; [|exact H].
    contradiction.
  - destruct (IrrigationFacts.schedule_effect valid req db)
      as [_ [-> | [d [-> _]]]];
      [exact Hi | apply IrrigationFacts.nth_error_app_keep, Hi].
Qed.

(** X16. No request ever touches a stored run that is not running.  In
    particular a scheduled run stays pending through any sequence of
    start, stop and schedule requests: no handler starts it, and it can be
    neither stopped nor cancelled. *)
Theorem scheduled_runs_are_never_started :
  forall valid calls db i e,
    nth_error (events db) i = Some e ->
    status e <> running ->
    nth_error (events (run valid calls db)) i = Some e.
Proof.
  intros valid calls. induction calls as [|c cs IH]; intros db i e Hi Hs;
    [exact Hi|].
  simpl. apply IH; [|exact Hs].
  apply step_keeps_not_running; assumption.
Qed.

Lemma scheduled_runs_are_never_started_witness :
  nth_error
    (events (run Scenario.anyDoc
               [Start (Scenario.ownerRequest 0); Stop (Scenario.ownerRequest 0)]
               (Scenario.irrigationDb [Scenario.run1 pending]))) 0
  = Some (Scenario.run1 pending).
Proof.
  apply scheduled_runs_are_never_started; [reflexivity | discriminate].
Defined.




(** *** Document ids *)













(** *** Cancelling *)





(** *** getIrrigationRecommendations *)





End IrrigationMore.

(** ** More on the calibration: order and inverted calibrations *)

Module CalibrationMore.

Local Open Scope Q_scope.

Lemma interpolation_antitone raw1 raw2 dryValue wetValue :
  wetValue < dryValue -> raw1 <= raw2 ->
  (dryValue - raw2) / (dryValue - wetValue) * 100
  <= (dryValue - raw1) / (dryValue - wetValue) * 100.
Proof.
  intros Hcal Hle.
  apply Qmult_le_compat_r; [|discriminate].
  unfold Qdiv. apply Qmult_le_compat_r; [lra|].
  apply Qlt_le_weak, Qinv_lt_0_compat. lra.
Qed.

Lemma clamp_mono p q :
  p <= q -> JS.max 0 (JS.min 100 p) <= JS.max 0 (JS.min 100 q).
Proof.
  intro H. unfold JS.max, JS.min.
  destruct (Qle_bool 100 p) eqn:Ep; destruct (Qle_bool 100 q) eqn:Eq;
    repeat match goal with
           | H : Qle_bool _ _ = true |- _ => apply Qle_bool_iff in H
           | H : Qle_bool _ _ = false |- _ =>
               apply not_true_iff_false in H; rewrite Qle_bool_iff in H
           | |- context [Qle_bool ?a ?b] =>
               let E := fresh "E" in destruct (Qle_bool a b) eqn:E
           end; lra.
Qed.

Lemma clamp_range p :
  0 <= JS.max 0 (JS.min 100 p) <= 100.
Proof.
  unfold JS.max, JS.min.
  repeat match goal with
         | H : Qle_bool _ _ = true |- _ => apply Qle_bool_iff in H
         | H : Qle_bool _ _ = false |- _ =>
             apply not_true_iff_false in H; rewrite Qle_bool_iff in H
         | |- context [Qle_bool ?a ?b] =>
             let E := fresh "E" in destruct (Qle_bool a b) eqn:E
         end; lra.
Qed.

Lemma rounded_clamp_range p :
  (0 <= JS.round (JS.max 0 (JS.min 100 p)) <= 100)%Z.
Proof.
  destruct (clamp_range p) as [Hlo Hhi].
  split.
  - rewrite <- (round_Z 0) at 1. apply round_mono. exact Hlo.
  - rewrite <- (round_Z 100). apply round_mono. exact Hhi.
Qed.

(** X22. With a calibration whose wet value is below its dry value, a higher
    raw value never gives a higher percentage.  With an inverted or
    degenerate calibration (dry value not above the wet value) the
    conversion never interpolates: it is 100 up to the wet value and 0
    above it. *)
Theorem calibration_is_antitone_and_inverted_is_a_step :
  forall dryValue wetValue,
    (wetValue < dryValue ->
     forall raw1 raw2, raw1 <= raw2 ->
       (Helpers.convertMoistureToPercentage raw2 dryValue wetValue
        <= Helpers.convertMoistureToPercentage raw1 dryValue wetValue)%Z)
    /\ (dryValue <= wetValue ->
        forall raw,
          Helpers.convertMoistureToPercentage raw dryValue wetValue
          = if JS.leb raw wetValue then 100%Z else 0%Z).
Proof.
  intros dryValue wetValue. split.
  - intros Hcal raw1 raw2 Hle.
    unfold Helpers.convertMoistureToPercentage, JS.leb, JS.geb. cbv zeta.
    destruct (Qle_bool raw1 wetValue) eqn:E1;
      destruct (Qle_bool raw2 wetValue) eqn:E2;
      destruct (Qle_bool dryValue raw1) eqn:D1;
      destruct (Qle_bool dryValue raw2) eqn:D2;
      repeat match goal with
             | H : Qle_bool _ _ = true |- _ => apply Qle_bool_iff in H
             | H : Qle_bool _ _ = false |- _ =>
                 apply not_true_iff_false in H; rewrite Qle_bool_iff in H
             end;
      try lia; try (exfalso; lra);
      try apply rounded_clamp_range.
    apply round_mono, clamp_mono, interpolation_antitone; assumption.
  - intros Hinv raw.
    unfold Helpers.convertMoistureToPercentage, JS.leb, JS.geb.
    destruct (Qle_bool raw wetValue) eqn:E1; [reflexivity|].
    destruct (Qle_bool dryValue raw) eqn:D1; [reflexivity|].
    apply not_true_iff_false in E1, D1.
    rewrite Qle_bool_iff in E1, D1. exfalso; lra.
Qed.

Lemma calibration_is_antitone_and_inverted_is_a_step_witness :
  (Helpers.convertMoistureToPercentage 500 595 239
   <= Helpers.convertMoistureToPercentage 300 595 239)%Z
  /\ Helpers.convertMoistureToPercentage 400 239 595 = 100%Z.
Proof.
  destruct (calibration_is_antitone_and_inverted_is_a_step 595 239)
    as [Hanti _].
  destruct (calibration_is_antitone_and_inverted_is_a_step 239 595)
    as [_ Hstep].
  split.
  - apply Hanti; [reflexivity | discriminate].
  - rewrite Hstep; [reflexivity | discriminate].
Defined.

End CalibrationMore.

(** ** Phone numbers, time differences, pages and retries *)

Module UtilsFacts.

Import Ascii.
Import Utils.

Lemma keep_idem f s : keep f (keep f s) = keep f s.
Proof.
  induction s as [|c s IH]; simpl; [reflexivity|].
  destruct (f c) eqn:E; simpl; rewrite ?E, IH; reflexivity.
Qed.

Lemma keep_every f s : every f s = true -> keep f s = s.
Proof.
  induction s as [|c s IH]; simpl; [reflexivity|].
  intro H. apply andb_true_iff in H. destruct H as [Hc Hs].
  rewrite Hc, (IH Hs). reflexivity.
Qed.

Lemma every_keep f s : every f (keep f s) = true.
Proof.
  induction s as [|c s IH]; simpl; [reflexivity|].
  destruct (f c) eqn:E; simpl; rewrite ?E, IH; reflexivity.
Qed.

Lemma leading_digit c :
  (50 <=? nat_of_ascii c)%nat && (nat_of_ascii c <=? 57)%nat = true ->
  isDigit c = true.
Proof.
  unfold isDigit. intro H. apply andb_true_iff in H. destruct H as [H1 H2].
  apply Nat.leb_le in H1. rewrite H2, andb_true_r.
  apply Nat.leb_le. lia.
Qed.

Lemma prefix_216 d : String.prefix "216" ("216" ++ d) = true.
Proof.
  simpl.
  repeat match goal with
         | |- context [ascii_dec ?a ?b] =>
             destruct (ascii_dec a b); [|congruence]
         end.
  destruct d; reflexivity.
Qed.

Lemma format_digits8 c s d :
  keep isDigit (String c s) = d -> String.length d = 8%nat ->
  formatTunisianPhone (Some (String c s)) = Some ("+216" ++ d)%string.
Proof.
  intros Hd Hl. unfold formatTunisianPhone. cbv zeta.
  rewrite Hd, Hl. reflexivity.
Qed.

Lemma format_digits11 c s d :
  keep isDigit (String c s) = d -> String.length d = 11%nat ->
  String.prefix "216" d = true ->
  formatTunisianPhone (Some (String c s)) = Some ("+" ++ d)%string.
Proof.
  intros Hd Hl Hp. unfold formatTunisianPhone. cbv zeta.
  rewrite Hd, Hl, Hp. reflexivity.
Qed.

Lemma valid_inv p :
  isValidTunisianPhone p = true ->
  exists c rest,
    p = ("+216" ++ String c rest)%string
    /\ (50 <=? nat_of_ascii c)%nat && (nat_of_ascii c <=? 57)%nat = true
    /\ String.length rest = 7%nat
    /\ every isDigit rest = true.
Proof.
  intro Hv.
  destruct p as [|c0 [|c1 [|c2 [|c3 [|c rest]]]]]; try discriminate Hv;
    try (destruct c0 as [[] [] [] [] [] [] [] []]; discriminate Hv);
    try (destruct c0 as [[] [] [] [] [] [] [] []]; try discriminate Hv;
         destruct c1 as [[] [] [] [] [] [] [] []]; discriminate Hv);
    try (destruct c0 as [[] [] [] [] [] [] [] []]; try discriminate Hv;
         destruct c1 as [[] [] [] [] [] [] [] []]; try discriminate Hv;
         destruct c2 as [[] [] [] [] [] [] [] []]; discriminate Hv);
    try (destruct c0 as [[] [] [] [] [] [] [] []]; try discriminate Hv;
         destruct c1 as [[] [] [] [] [] [] [] []]; try discriminate Hv;
         destruct c2 as [[] [] [] [] [] [] [] []]; try discriminate Hv;
         destruct c3 as [[] [] [] [] [] [] [] []]; discriminate Hv).
  destruct c0 as [[] [] [] [] [] [] [] []]; try discriminate Hv;
    destruct c1 as [[] [] [] [] [] [] [] []]; try discriminate Hv;
    destruct c2 as [[] [] [] [] [] [] [] []]; try discriminate Hv;
    destruct c3 as [[] [] [] [] [] [] [] []]; try discriminate Hv.
  exists c, rest. split; [reflexivity|].
  unfold isValidTunisianPhone in Hv.
  apply andb_true_iff in Hv. destruct Hv as [Hv Hr].
  apply andb_true_iff in Hv. destruct Hv as [Hc Hl].
  apply Nat.eqb_eq in Hl. repeat split; assumption.
Qed.

(** X23. Formatting twice is formatting once: a formatted number is left as
    it is.  A valid number is already formatted. *)
Theorem formatTunisianPhone_is_idempotent :
  forall phone,
    formatTunisianPhone (formatTunisianPhone phone) = formatTunisianPhone phone
    /\ forall p, phone = Some p -> isValidTunisianPhone p = true ->
                 formatTunisianPhone phone = phone.
Proof.
  intro phone. split.
  - destruct phone as [[|c s]|]; try reflexivity.
    destruct (Nat.eqb (String.length (keep isDigit (String c s))) 8) eqn:E8.
    + apply Nat.eqb_eq in E8.
      rewrite (format_digits8 c s _ eq_refl E8).
      set (d := keep isDigit (String c s)) in *.
      apply (format_digits11 "+"%char ("216" ++ d)%string).
      * change (keep isDigit (String "+" ("216" ++ d)))
          with ("216" ++ keep isDigit d)%string.
        unfold d. rewrite keep_idem. reflexivity.
      * simpl. rewrite E8. reflexivity.
      * apply prefix_216.
    + destruct (Nat.eqb (String.length (keep isDigit (String c s))) 11
                && String.prefix "216" (keep isDigit (String c s))) eqn:E11.
      * apply andb_true_iff in E11. destruct E11 as [El Ep].
        apply Nat.eqb_eq in El.
        rewrite (format_digits11 c s _ eq_refl El Ep).
        set (d := keep isDigit (String c s)) in *.
        apply (format_digits11 "+"%char d); try assumption.
        change (keep isDigit (String "+" d)) with (keep isDigit d).
        unfold d. apply keep_idem.
      * assert (H : formatTunisianPhone (Some (String c s)) = Some (String c s)).
        { unfold formatTunisianPhone. cbv zeta. rewrite E8, E11. reflexivity. }
        rewrite H. exact H.
  - intros p -> Hv.
    destruct (valid_inv p Hv) as [c [rest [-> [Hc [Hl Hr]]]]].
    apply (format_digits11 "+"%char _ ("216" ++ String c rest)%string).
    + change (keep isDigit (String "+" (String "2" (String "1" (String "6"
                (String c rest))))))
        with ("216" ++ keep isDigit (String c rest))%string.
      rewrite (keep_every isDigit (String c rest)); [reflexivity|].
      simpl. rewrite (leading_digit c Hc), Hr. reflexivity.
    + simpl. rewrite Hl. reflexivity.
    + apply prefix_216.
Qed.

Lemma formatTunisianPhone_is_idempotent_witness :
  formatTunisianPhone (Some "+21622123456"%string) = Some "+21622123456"%string.
Proof.
  destruct (formatTunisianPhone_is_idempotent (Some "+21622123456"%string))
    as [_ H].
  apply (H "+21622123456"%string); reflexivity.
Defined.

(** X24. A number with exactly eight digits, however they are separated, is
    formatted as "+216" followed by the digits, and the result is a valid
    number exactly when the first digit is 2 to 9. *)
Theorem eight_digits_get_the_country_code :
  forall p,
    String.length (keep isDigit p) = 8%nat ->
    exists c rest,
      keep isDigit p = String c rest
      /\ formatTunisianPhone (Some p) = Some ("+216" ++ String c rest)%string
      /\ isValidTunisianPhone ("+216" ++ String c rest)
         = (50 <=? nat_of_ascii c)%nat.
Proof.
  intros p H8.
  destruct (keep isDigit p) as [|c rest] eqn:Ed; [discriminate|].
  exists c, rest. split; [reflexivity|].
  assert (Hev : every isDigit (String c rest) = true).
  { rewrite <- Ed. apply every_keep. }
  simpl in Hev. apply andb_true_iff in Hev. destruct Hev as [Hc Hrest].
  split.
  - destruct p as [|c0 s0]; [discriminate|].
    apply format_digits8; assumption.
  - simpl. simpl in H8. injection H8 as H7. rewrite H7, Hrest.
    unfold isDigit in Hc. apply andb_true_iff in Hc. destruct Hc as [_ Hhi].
    rewrite Hhi. simpl. rewrite !andb_true_r. reflexivity.
Qed.

Lemma eight_digits_get_the_country_code_witness :
  formatTunisianPhone (Some "22 123 456"%string) = Some "+21622123456"%string
  /\ isValidTunisianPhone "+21622123456" = true.
Proof.
  destruct (eight_digits_get_the_country_code "22 123 456"%string eq_refl)
    as [c [rest [Hk [Hf Hv]]]].
  simpl in Hk. injection Hk as <- <-.
  split; [exact Hf | exact Hv].
Defined.

(** *** getTimeDifference *)

Local Open Scope Z_scope.

(** X25. The difference is symmetric in the two dates.  It is counted in whole
    days from 24 hours on, else in whole hours from 60 minutes on, else in
    whole minutes from 60 seconds on, else in whole seconds, which may be
    0.  The unit is in the plural exactly for a count above 1. *)
Theorem time_difference_units :
  forall date1 date2,
    let diff := Z.abs (date2 - date1) in
    let r := getTimeDifference date1 date2 in
    getTimeDifference date2 date1 = r
    /\ (86400000 <= diff -> timeUnit r = day /\ count r = diff / 86400000)
    /\ (3600000 <= diff < 86400000 ->
        timeUnit r = hour /\ count r = diff / 3600000)
    /\ (60000 <= diff < 3600000 ->
        timeUnit r = minute /\ count r = diff / 60000)
    /\ (diff < 60000 -> timeUnit r = second /\ count r = diff / 1000)
    /\ (plural r = true <-> 1 < count r).
Proof.
  intros date1 date2 diff r.
  assert (Hsym : Z.abs (date1 - date2) = diff).
  { unfold diff. lia. }
  assert (Hm : diff / 1000 / 60 = diff / 60000).
  { rewrite Z.div_div by lia. reflexivity. }
  assert (Hh : diff / 1000 / 60 / 60 = diff / 3600000).
  { rewrite Hm, Z.div_div by lia. reflexivity. }
  assert (Hd : diff / 1000 / 60 / 60 / 24 = diff / 86400000).
  { rewrite Hh, Z.div_div by lia. reflexivity. }
  assert (Hr : r = getTimeDifference date1 date2) by reflexivity.
  unfold getTimeDifference in Hr. cbv zeta in Hr. fold diff in Hr.
  rewrite Hd, Hh, Hm in Hr.
  split.
  { unfold r, getTimeDifference. rewrite Hsym. reflexivity. }
  assert (Hpos : 0 <= diff) by (unfold diff; lia).
  clearbody r diff.
  destruct (0 <? diff / 86400000) eqn:Ed;
    [|destruct (0 <? diff / 3600000) eqn:Eh;
      [|destruct (0 <? diff / 60000) eqn:Em]];
    subst r; cbn [timeUnit count plural];
    rewrite ?Z.ltb_lt, ?Z.ltb_ge in *;
    repeat split; intros; try reflexivity; try discriminate;
    try (rewrite ?Z.ltb_lt in *; assumption);
    try (apply Z.ltb_lt; assumption);
    exfalso; Z.div_mod_to_equations; lia.
Qed.

Lemma time_difference_units_witness :
  timeUnit (getTimeDifference 0 90000000) = day
  /\ count (getTimeDifference 0 90000000) = 1.
Proof.
  destruct (time_difference_units 0 90000000) as [_ [H _]].
  apply H. vm_compute. discriminate.
Defined.

(** *** paginateArray *)

Lemma firstn_add {A} (n m : nat) (l : list A) :
  firstn (n + m) l = firstn n l ++ firstn m (skipn n l).
Proof.
  revert l. induction n as [|n IH]; intro l; [reflexivity|].
  destruct l as [|x l]; simpl.
  - rewrite firstn_nil. reflexivity.
  - rewrite IH. reflexivity.
Qed.

(** A page of a positive size, counted from 1, is a chunk of the array. *)
Lemma page_is_chunk {A} (array : list A) (p L : nat) :
  (1 <= p)%nat -> (1 <= L)%nat ->
  data (paginateArray array (Z.of_nat p) (Z.of_nat L))
  = firstn L (skipn ((p - 1) * L) array).
Proof.
  intros Hp HL. unfold paginateArray, data, slice. cbv zeta.
  set (len := List.length array).
  assert (Hs : (Z.of_nat p - 1) * Z.of_nat L = Z.of_nat ((p - 1) * L)) by nia.
  rewrite Hs.
  set (s := ((p - 1) * L)%nat).
  destruct (Z.of_nat s <? 0) eqn:E1; [apply Z.ltb_lt in E1; lia|].
  destruct (Z.of_nat s + Z.of_nat L <? 0) eqn:E2; [apply Z.ltb_lt in E2; lia|].
  destruct (Nat.le_gt_cases len s) as [Hout|Hin].
  - rewrite (skipn_all2 array Hout).
    replace (Z.to_nat (Z.min (Z.of_nat s) (Z.of_nat len))) with len by lia.
    rewrite (skipn_all2 (n:=len) array) by (unfold len; lia).
    rewrite !firstn_nil. reflexivity.
  - replace (Z.to_nat (Z.min (Z.of_nat s) (Z.of_nat len))) with s by lia.
    destruct (Nat.le_gt_cases (s + L) len) as [Hfull|Hpart].
    + f_equal. lia.
    + assert (Hl : (List.length (skipn s array) <= len - s)%nat).
      { rewrite length_skipn. fold len. lia. }
      rewrite !firstn_all2; [reflexivity | lia | lia].
Qed.

Lemma chunks_concat {A} (array : list A) (L n : nat) :
  List.concat (map (fun p => firstn L (skipn ((p - 1) * L) array)) (seq 1 n))
  = firstn (n * L) array.
Proof.
  induction n as [|n IH]; [reflexivity|].
  rewrite seq_S, map_app, List.concat_app, IH. simpl.
  rewrite app_nil_r, Nat.sub_0_r.
  replace (L + n * L)%nat with (n * L + L)%nat by lia.
  rewrite firstn_add. reflexivity.
Qed.

Lemma totalPages_bounds (len L : nat) :
  (1 <= L)%nat ->
  let n := Qceiling (inject_Z (Z.of_nat len) / inject_Z (Z.of_nat L)) in
  (Z.of_nat len <= n * Z.of_nat L /\ (n - 1) * Z.of_nat L < Z.of_nat len)%Z.
Proof.
  intros HL n.
  assert (HLq : (0 < inject_Z (Z.of_nat L))%Q).
  { change 0%Q with (inject_Z 0). rewrite <- Zlt_Qlt. lia. }
  pose proof (Qle_ceiling (inject_Z (Z.of_nat len) / inject_Z (Z.of_nat L)))
    as Hup.
  pose proof (Qceiling_lt (inject_Z (Z.of_nat len) / inject_Z (Z.of_nat L)))
    as Hlow.
  fold n in Hup, Hlow.
  split.
  - rewrite Zle_Qle, inject_Z_mult.
    apply (Qmult_le_compat_r _ _ (inject_Z (Z.of_nat L))) in Hup;
      [|apply Qlt_le_weak; exact HLq].
    rewrite Qmult_comm, Qmult_div_r in Hup; [exact Hup|].
    intro H. rewrite H in HLq. discriminate.
  - rewrite Zlt_Qlt, inject_Z_mult.
    apply (Qmult_lt_compat_r _ _ (inject_Z (Z.of_nat L))) in Hlow;
      [|exact HLq].
    rewrite (Qmult_comm (_ / _)), Qmult_div_r in Hlow; [exact Hlow|].
    intro H. rewrite H in HLq. discriminate.
Qed.

(** X26. For a limit of at least 1 the pages partition the array: the number
    of pages is the same whatever page is asked for, the pages 1 to that
    number, one after the other, are the array, each of them is non-empty
    and has at most [limit] elements, and every later page is empty. *)
Theorem pages_partition_the_array :
  forall (A : Type) (array : list A) (limit : Z),
    1 <= limit ->
    exists n : nat,
      (forall page,
          totalPages (paginateArray array page limit)
          = JS.Fin (inject_Z (Z.of_nat n)))
      /\ List.concat (map (fun p => data (paginateArray array (Z.of_nat p) limit))
                   (seq 1 n)) = array
      /\ (forall p, (1 <= p <= n)%nat ->
            data (paginateArray array (Z.of_nat p) limit) <> []
            /\ Z.of_nat (List.length
                           (data (paginateArray array (Z.of_nat p) limit)))
               <= limit)
      /\ (forall page, Z.of_nat n < page ->
            data (paginateArray array page limit) = []).
Proof.
  intros A array limit Hlimit.
  set (L := Z.to_nat limit).
  assert (HL : (1 <= L)%nat) by (unfold L; lia).
  assert (El : limit = Z.of_nat L) by (unfold L; lia).
  rewrite El. clearbody L. clear El Hlimit limit.
  set (len := List.length array).
  destruct (totalPages_bounds len L HL) as [Hup Hlow].
  set (n := Qceiling (inject_Z (Z.of_nat len) / inject_Z (Z.of_nat L))) in *.
  assert (Hn : 0 <= n) by nia.
  exists (Z.to_nat n).
  rewrite Z2Nat.id by exact Hn.
  split; [|split; [|split]].
  - intro page. unfold paginateArray, totalPages, JS.div. fold len.
    assert (Hz : Qeq_bool (inject_Z (Z.of_nat L)) 0 = false).
    { apply not_true_iff_false. intro H. apply Qeq_bool_iff in H.
      unfold Qeq in H. simpl in H. lia. }
    rewrite Hz. reflexivity.
  - rewrite (map_ext_in _ (fun p => firstn L (skipn ((p - 1) * L) array))).
    + rewrite chunks_concat. apply firstn_all2. fold len. nia.
    + intros p Hp. apply in_seq in Hp. apply page_is_chunk; lia.
  - intros p Hp. rewrite page_is_chunk by lia.
    split.
    + assert (Hs : ((p - 1) * L < len)%nat) by nia.
      assert (Hk : (1 <= List.length (skipn ((p - 1) * L) array))%nat).
      { rewrite length_skipn. fold len. lia. }
      destruct (skipn ((p - 1) * L) array) as [|x l]; [simpl in Hk; lia|].
      destruct L; [lia|]. discriminate.
    + rewrite length_firstn. lia.
  - intros page Hpage.
    unfold paginateArray, data, slice. cbv zeta. fold len.
    assert (Hs : Z.of_nat len <= (page - 1) * Z.of_nat L) by nia.
    destruct ((page - 1) * Z.of_nat L <? 0) eqn:E1;
      [apply Z.ltb_lt in E1; lia|].
    destruct ((page - 1) * Z.of_nat L + Z.of_nat L <? 0) eqn:E2;
      [apply Z.ltb_lt in E2; lia|].
    replace (Z.to_nat (Z.min ((page - 1) * Z.of_nat L) (Z.of_nat len)))
      with len by lia.
    unfold len. rewrite skipn_all. apply firstn_nil.
Qed.

Lemma pages_partition_the_array_witness :
  exists n : nat,
    totalPages (paginateArray [1; 2; 3; 4; 5] 1 2)
    = JS.Fin (inject_Z (Z.of_nat n))
    /\ List.concat (map (fun p => data (paginateArray [1; 2; 3; 4; 5] (Z.of_nat p) 2))
                 (seq 1 n)) = [1; 2; 3; 4; 5].
Proof.
  destruct (pages_partition_the_array Z [1; 2; 3; 4; 5] 2) as [n [Ht [Hc _]]];
    [lia|].
  exists n. split; [apply Ht | exact Hc].
Defined.

(** *** retry *)

Section RetryFacts.

Context {E A : Type}.
Variable fn : nat -> E + A.
Variable maxAttempts : nat.
Variable baseDelay : Z.

Lemma attempts_run d :
  forall fuel attempt slept,
    (1 <= attempt)%nat ->
    (attempt + d <= maxAttempts)%nat ->
    (maxAttempts < fuel + attempt)%nat ->
    (forall j, (attempt <= j < attempt + d)%nat -> exists e, fn j = inl e) ->
    attempts fn maxAttempts baseDelay fuel attempt slept
    = match fn (attempt + d)%nat with
      | inr a =>
          (Resolved a,
           slept ++ map (fun k => baseDelay * 2 ^ (Z.of_nat k - 1))
                      (seq attempt d))
      | inl e =>
          attempts fn maxAttempts baseDelay (fuel - d) (attempt + d)
            (slept ++ map (fun k => baseDelay * 2 ^ (Z.of_nat k - 1))
                        (seq attempt d))
      end.
Proof.
  induction d as [|d IH]; intros fuel attempt slept H1 Hmax Hfuel Hfail.
  - rewrite Nat.add_0_r, Nat.sub_0_r. simpl. rewrite app_nil_r.
    destruct fuel as [|fuel]; [lia|]. simpl.
    destruct (fn attempt) eqn:Ef; [reflexivity|].
    assert (Hle : (attempt <=? maxAttempts)%nat = true)
      by (apply Nat.leb_le; lia).
    rewrite Hle. reflexivity.
  - destruct fuel as [|fuel]; [lia|].
    destruct (Hfail attempt) as [e He]; [lia|].
    cbn [attempts].
    assert (Hle : (attempt <=? maxAttempts)%nat = true)
      by (apply Nat.leb_le; lia).
    assert (Hne : Nat.eqb attempt maxAttempts = false)
      by (apply Nat.eqb_neq; lia).
    rewrite Hle, He, Hne. cbv zeta.
    rewrite (IH fuel (S attempt)); try lia.
    + replace (S attempt + d)%nat with (attempt + S d)%nat by lia.
      replace (S fuel - S d)%nat with (fuel - d)%nat by lia.
      cbn [seq map]. rewrite <- !app_assoc. reflexivity.
    + intros j Hj. apply Hfail. lia.
Qed.

Lemma delays_sum k :
  (1 <= k)%nat ->
  fold_right Z.add 0 (delaysBefore baseDelay k)
  = baseDelay * (2 ^ (Z.of_nat k - 1) - 1).
Proof.
  unfold delaysBefore. intro Hk.
  replace (Z.of_nat k - 1) with (Z.of_nat (k - 1)) by lia.
  assert (Hgen : forall l z, fold_right Z.add z l = fold_right Z.add 0 l + z).
  { induction l as [|x l IHl]; intro z; simpl; [lia|]. rewrite IHl. lia. }
  induction (k - 1)%nat as [|m IH]; [simpl; lia|].
  rewrite seq_S, map_app, fold_right_app. cbn [map fold_right].
  rewrite Hgen, IH.
  replace (Z.of_nat (1 + m) - 1) with (Z.of_nat m) by lia.
  replace (Z.of_nat (S m)) with (Z.of_nat m + 1) by lia.
  rewrite Z.pow_add_r by lia. lia.
Qed.

(** X27. [retry] resolves with the first attempt that succeeds among the first
    [maxAttempts], after sleeping before each earlier retry a delay that
    doubles from [baseDelay] on; when all [maxAttempts] attempts fail it
    rejects with the error of the last one, without sleeping after it.
    With no attempt allowed it resolves with [undefined].  The delays
    before attempt [k] add up to [baseDelay * (2^(k-1) - 1)]. *)
Theorem retry_gives_the_first_success :
  (forall k a,
      (1 <= k <= maxAttempts)%nat ->
      fn k = inr a ->
      (forall j, (1 <= j < k)%nat -> exists e, fn j = inl e) ->
      retry fn maxAttempts baseDelay = (Resolved a, delaysBefore baseDelay k))
  /\ (forall e,
         (1 <= maxAttempts)%nat ->
         fn maxAttempts = inl e ->
         (forall j, (1 <= j < maxAttempts)%nat -> exists e', fn j = inl e') ->
         retry fn maxAttempts baseDelay
         = (Rejected e, delaysBefore baseDelay maxAttempts))
  /\ (maxAttempts = 0%nat ->
      retry fn maxAttempts baseDelay = (ResolvedUndefined, []))
  /\ (forall k, (1 <= k)%nat ->
        fold_right Z.add 0 (delaysBefore baseDelay k)
        = baseDelay * (2 ^ (Z.of_nat k - 1) - 1)).
Proof.
  split; [|split; [|split]].
  - intros k a Hk Hok Hfail. unfold retry, delaysBefore.
    rewrite (attempts_run (k - 1)); try lia.
    + replace (1 + (k - 1))%nat with k by lia. rewrite Hok. reflexivity.
    + intros j Hj. apply Hfail. lia.
  - intros e Hmax Hlast Hfail. unfold retry, delaysBefore.
    rewrite (attempts_run (maxAttempts - 1)); try lia.
    + replace (1 + (maxAttempts - 1))%nat with maxAttempts by lia.
      rewrite Hlast.
      replace (S maxAttempts - (maxAttempts - 1))%nat with 2%nat by lia.
      cbn [attempts]. rewrite Nat.leb_refl, Hlast, Nat.eqb_refl.
      reflexivity.
    + intros j Hj. apply Hfail. lia.
  - intros ->. reflexivity.
  - apply delays_sum.
Qed.

End RetryFacts.

Lemma retry_gives_the_first_success_witness :
  retry (fun k => if Nat.eqb k 3 then inr 7 else inl tt) 5 1000
  = (Resolved 7, [1000; 2000]).
Proof.
  destruct (retry_gives_the_first_success
              (fun k => if Nat.eqb k 3 then inr 7 else inl tt) 5 1000)
    as [H _].
  apply (H 3%nat 7); [lia | reflexivity |].
  intros j Hj. exists tt.
  destruct j as [|[|[|j]]]; try reflexivity; lia.
Defined.


End UtilsFacts.

(** ** The weather analysis of the weather service *)

Module WeatherFacts.

Import WeatherService.

Local Open Scope Q_scope.

(** X28. The weather service advises against irrigating exactly when the
    humidity is above 80 or the first forecast day has more than 5 mm of
    rain, and exactly then its confidence is above 0.5.  The confidence is
    one of 0.5, 0.7, 0.8 and 1, so the final clamp to [0,1] never changes
    it.  High wind and high temperature change neither. *)
Theorem weather_confidence_rises_only_against_irrigation :
  forall current forecast,
    let r := analyzeWeatherForIrrigation current forecast in
    (shouldIrrigate r = false
     <-> (80 < humidity current
          \/ exists rainfall,
               hd_error forecast = Some (Some rainfall) /\ 5 < rainfall))
    /\ (shouldIrrigate r = true <-> confidence r == 0.5)
    /\ (confidence r == 0.5 \/ confidence r == 0.7
        \/ confidence r == 0.8 \/ confidence r == 1)
    /\ confidence r == summedConfidence current forecast.
Proof.
  intros current forecast r.
  assert (Hrain : forall x, rainAhead forecast = Some x ->
                    hd_error forecast = Some (Some x) /\ 5 < x).
  { intros x H. destruct forecast as [|[q|] rest]; try discriminate.
    simpl in H. destruct (JS.gtb q 5) eqn:E; [|discriminate].
    injection H as <-. apply gtb_gt in E. split; [reflexivity | exact E]. }
  assert (Hdry : rainAhead forecast = None ->
                 forall x, hd_error forecast = Some (Some x) -> x <= 5).
  { intros H x Hx. destruct forecast as [|[q|] rest]; try discriminate.
    simpl in Hx. injection Hx as ->. simpl in H.
    destruct (JS.gtb x 5) eqn:E; [discriminate|].
    apply gtb_le in E. exact E. }
  subst r.
  unfold analyzeWeatherForIrrigation, summedConfidence.
  cbn [shouldIrrigate confidence].
  destruct (JS.gtb (humidity current) 80) eqn:Eh;
    destruct (rainAhead forecast) as [x|] eqn:Er; cbn [negb andb].
  - apply gtb_gt in Eh.
    split; [split; [intros _; left; exact Eh | reflexivity]|].
    split; [split; [discriminate | intro H; vm_compute in H; discriminate]|].
    split; [right; right; right; vm_compute; reflexivity
           | vm_compute; reflexivity].
  - apply gtb_gt in Eh.
    split; [split; [intros _; left; exact Eh | reflexivity]|].
    split; [split; [discriminate | intro H; vm_compute in H; discriminate]|].
    split; [right; left; vm_compute; reflexivity | vm_compute; reflexivity].
  - destruct (Hrain x eq_refl) as [Hhd Hx].
    split; [split; [intros _; right; exists x; split; assumption
                   | reflexivity]|].
    split; [split; [discriminate | intro H; vm_compute in H; discriminate]|].
    split; [right; right; left; vm_compute; reflexivity
           | vm_compute; reflexivity].
  - apply gtb_le in Eh. specialize (Hdry eq_refl).
    split.
    { split; [discriminate|].
      intros [H | [y [Hy Hlt]]]; [exfalso; lra|].
      specialize (Hdry y Hy). exfalso; lra. }
    split; [split; [intros _; vm_compute; reflexivity | reflexivity]|].
    split; [left; vm_compute; reflexivity | vm_compute; reflexivity].
Qed.

End WeatherFacts.

(** ** The zones of a farm *)

Module FarmZonesFacts.

Import FarmZones.

Local Open Scope Q_scope.

Lemma nodup_length_le (l : list Z) :
  (List.length (nodup Z.eq_dec l) <= List.length l)%nat.
Proof.
  induction l as [|x l IH]; simpl; [lia|].
  destruct (in_dec Z.eq_dec x l); simpl; lia.
Qed.

Lemma nodup_length_NoDup (l : list Z) :
  Nat.eqb (List.length l) (List.length (nodup Z.eq_dec l)) = true <-> NoDup l.
Proof.
  rewrite Nat.eqb_eq. split.
  - induction l as [|x l IH]; intro H; [constructor|].
    simpl in H. destruct (in_dec Z.eq_dec x l) as [Hin|Hnin].
    + pose proof (nodup_length_le l). lia.
    + simpl in H. constructor; [exact Hnin | apply IH; lia].
  - intro H. rewrite (nodup_fixed_point Z.eq_dec H). reflexivity.
Qed.

Lemma NoDup_snoc (l : list Z) (x : Z) :
  NoDup l -> ~ In x l -> NoDup (l ++ [x]).
Proof.
  induction l as [|y l IH]; simpl; intros Hnd Hnin.
  - constructor; [intros [] | constructor].
  - inversion Hnd as [|? ? Hy Hl]; subst.
    constructor.
    + intro Hin. apply in_app_or in Hin. destruct Hin as [Hin | [-> | []]].
      * apply Hy. exact Hin.
      * apply Hnin. left. reflexivity.
    + apply IH; [exact Hl|]. intro Hin. apply Hnin. right. exact Hin.
Qed.

Lemma maxId_bounds zs :
  forall z, (z <= maxId z zs)%Z
            /\ forall x, In x zs -> (x <= maxId z zs)%Z.
Proof.
  unfold maxId. induction zs as [|y zs IH]; intro z; simpl.
  - split; [lia | intros x []].
  - destruct (IH (Z.max z y)) as [H1 H2]. split; [lia|].
    intros x [<- | Hx]; [lia | apply H2; exact Hx].
Qed.

Lemma totalZoneArea_app this zs z :
  location_zones this = zs ++ [z] ->
  totalZoneArea this
  == fold_left (fun total zone => total + area zone) zs 0 + area z.
Proof.
  unfold totalZoneArea. intros ->. rewrite fold_left_app. reflexivity.
Qed.

Lemma sum_shift (zs : list Zone) :
  forall a,
    fold_left (fun total zone => total + area zone) zs a
    == a + fold_left (fun total zone => total + area zone) zs 0.
Proof.
  induction zs as [|z zs IH]; intro a; simpl; [lra|].
  rewrite (IH (a + area z)), (IH (0 + area z)). lra.
Qed.

Lemma filter_area_le (f : Zone -> bool) (zs : list Zone) :
  forallb (fun zone => JS.geb (area zone) 0.01) zs = true ->
  fold_left (fun total zone => total + area zone) (filter f zs) 0
  <= fold_left (fun total zone => total + area zone) zs 0.
Proof.
  induction zs as [|z zs IH]; simpl; intro H; [lra|].
  apply andb_true_iff in H. destruct H as [Hz Hzs].
  unfold JS.geb in Hz. apply Qle_bool_iff in Hz.
  specialize (IH Hzs).
  rewrite (sum_shift zs (0 + area z)).
  destruct (f z); simpl.
  - rewrite (sum_shift (filter f zs) (0 + area z)). lra.
  - lra.
Qed.

Lemma NoDup_map_filter (f : Zone -> bool) (zs : list Zone) :
  NoDup (map zone_id zs) -> NoDup (map zone_id (filter f zs)).
Proof.
  induction zs as [|z zs IH]; simpl; intro H; [constructor|].
  inversion H as [|? ? Hnin Hnd]; subst.
  destruct (f z); simpl; [|apply IH; exact Hnd].
  constructor; [|apply IH; exact Hnd].
  intro Hin. apply Hnin. apply in_map_iff in Hin.
  destruct Hin as [x [Hx Hf]]. apply filter_In in Hf.
  apply in_map_iff. exists x. split; [exact Hx | apply Hf].
Qed.

Lemma preSave_unique this :
  preSave this <> Some (HookError "Zone IDs must be unique")
  <-> NoDup (map zone_id (location_zones this)).
Proof.
  unfold preSave. cbv zeta.
  destruct (Nat.eqb (List.length (map zone_id (location_zones this)))
              (List.length (nodup Z.eq_dec (map zone_id (location_zones this)))))
    eqn:E; simpl.
  - apply nodup_length_NoDup in E. split; [intros _; exact E|].
    intros _. destruct (JS.gtb _ _); discriminate.
  - split; [intro H; exfalso; apply H; reflexivity|].
    intro H. apply nodup_length_NoDup in H. congruence.
Qed.

(** X29. [addZone] with data that carries no id gives the new zone an id above
    every id of the farm, so unique ids stay unique and the hook never
    rejects the save for a repeated id; the new zone is last.  With data
    that carries the id of a zone of the farm, a save that passes
    validation is always rejected for the repeated id: the stored farms
    are unchanged, while the document in memory keeps the pushed zone. *)
Theorem addZone_keeps_zone_ids_unique :
  forall valid zoneData this farms,
    NoDup (map zone_id (location_zones this)) ->
    let this' := fst (addZone valid zoneData this farms) in
    let result := snd (addZone valid zoneData this farms) in
    (exists zone,
        location_zones this' = location_zones this ++ [zone]
        /\ area zone = data_area zoneData)
    /\ (data_id zoneData = None ->
        (forall zone zone',
            In zone (location_zones this) ->
            location_zones this' = location_zones this ++ [zone'] ->
            (zone_id zone < zone_id zone')%Z)
        /\ NoDup (map zone_id (location_zones this'))
        /\ fst result <> inl (HookError "Zone IDs must be unique"))
    /\ (forall i,
          data_id zoneData = Some i ->
          In i (map zone_id (location_zones this)) ->
          valid this' = true ->
          result = (inl (HookError "Zone IDs must be unique"), farms)
          /\ List.length (location_zones this')
             = S (List.length (location_zones this))).
Proof.
  intros valid zoneData this farms Hnd this' result.
  subst this' result. unfold addZone. cbv zeta. cbn [fst snd].
  set (nextId := match map zone_id (location_zones this) with
                 | z :: zs => (maxId z zs + 1)%Z
                 | [] => 1%Z
                 end).
  set (zone := {| zone_id := match data_id zoneData with
                             | Some i => i
                             | None => nextId
                             end;
                  area := data_area zoneData;
                  name := data_name zoneData |}).
  set (this' := set_zones (location_zones this ++ [zone]) this).
  assert (Hz : location_zones this' = location_zones this ++ [zone])
    by reflexivity.
  split; [exists zone; split; [exact Hz | reflexivity]|].
  split.
  - intro Hnone.
    assert (Hfresh : forall z, In z (location_zones this) ->
                               (zone_id z < zone_id zone)%Z).
    { intros z Hin. unfold zone. cbn [zone_id]. rewrite Hnone.
      unfold nextId.
      assert (Hin' : In (zone_id z) (map zone_id (location_zones this)))
        by (apply in_map; exact Hin).
      destruct (map zone_id (location_zones this)) as [|y ys];
        [destruct Hin'|].
      destruct (maxId_bounds ys y) as [H1 H2].
      destruct Hin' as [<- | Hys]; [lia|].
      specialize (H2 _ Hys). lia. }
    assert (Hnd' : NoDup (map zone_id (location_zones this'))).
    { rewrite Hz, map_app. cbn [map].
      apply NoDup_snoc; [exact Hnd|].
      intro Hin. apply in_map_iff in Hin.
      destruct Hin as [z [Hid Hin]]. specialize (Hfresh z Hin). lia. }
    split; [|split].
    + intros z z' Hin Heq. rewrite Hz in Heq.
      apply app_inj_tail in Heq. destruct Heq as [_ <-].
      apply Hfresh. exact Hin.
    + exact Hnd'.
    + unfold save. destruct (valid this'); simpl; [|discriminate].
      apply preSave_unique in Hnd'.
      destruct (preSave this') as [e|] eqn:Ep; simpl; [|discriminate].
      intro H. apply Hnd'. injection H as ->. reflexivity.
  - intros i Hsome Hin Hvalid.
    split.
    + unfold save. rewrite Hvalid. simpl.
      assert (Hdup : ~ NoDup (map zone_id (location_zones this'))).
      { rewrite Hz, map_app. simpl. intro H.
        apply NoDup_remove_2 in H. apply H. rewrite app_nil_r.
        unfold zone. cbn [zone_id]. rewrite Hsome. exact Hin. }
      destruct (preSave this') as [e|] eqn:Ep.
      * destruct (preSave_unique this') as [Hu _].
        unfold preSave in Ep. cbv zeta in Ep.
        destruct (negb _) eqn:En in Ep.
        -- injection Ep as <-. reflexivity.
        -- exfalso. apply Hdup. apply nodup_length_NoDup.
           apply negb_false_iff in En. exact En.
      * exfalso. apply Hdup. apply preSave_unique. rewrite Ep. discriminate.
    + rewrite Hz, length_app. simpl. lia.
Qed.

Lemma addZone_keeps_zone_ids_unique_witness :
  NoDup
    (map zone_id
       (location_zones
          (fst (addZone (fun _ => true)
                  {| data_id := None; data_area := 1; data_name := "north" |}
                  {| _id := 1; location_area := 10;
                     location_zones :=
                       [{| zone_id := 4; area := 2; name := "south" |}] |}
                  [])))).
Proof.
  destruct (addZone_keeps_zone_ids_unique (fun _ => true)
              {| data_id := None; data_area := 1; data_name := "north" |}
              {| _id := 1; location_area := 10;
                 location_zones :=
                   [{| zone_id := 4; area := 2; name := "south" |}] |}
              []) as [_ [H _]].
  - repeat constructor; simpl; tauto.
  - destruct (H eq_refl) as [_ [Hn _]]. exact Hn.
Defined.

(** X30. Removing a zone from a farm that the hook accepts, with zone areas as
    the schema bounds them, gives a farm that the hook accepts: no zone
    with the removed id is left, and the save can fail only through the
    validation, in which case the stored farms are unchanged. *)
Theorem removeZone_is_never_rejected_by_the_hook :
  forall valid zoneId this farms,
    preSave this = None ->
    zoneAreasValid this = true ->
    let this' := fst (removeZone valid zoneId this farms) in
    let result := snd (removeZone valid zoneId this farms) in
    (forall zone, In zone (location_zones this') ->
                  zone_id zone <> zoneId /\ In zone (location_zones this))
    /\ preSave this' = None
    /\ (valid this' = true -> fst result = inr this')
    /\ (valid this' = false -> result = (inl ValidationError, farms)).
Proof.
  intros valid zoneId this farms Hhook Hareas this' result.
  subst this' result. unfold removeZone. cbv zeta. cbn [fst snd].
  set (keepZone := fun zone : Zone => negb (Z.eqb (zone_id zone) zoneId)).
  set (this' := set_zones (filter keepZone (location_zones this)) this).
  assert (Hp : preSave this' = None).
  { assert (Hu : NoDup (map zone_id (location_zones this))).
    { apply preSave_unique. rewrite Hhook. discriminate. }
    unfold preSave in *. cbv zeta in *.
    assert (Hu' : NoDup (map zone_id (location_zones this')))
      by (apply NoDup_map_filter; exact Hu).
    apply nodup_length_NoDup in Hu'. rewrite Hu'.
    apply nodup_length_NoDup in Hu. rewrite Hu in Hhook.
    cbn [negb] in *.
    destruct (JS.gtb (totalZoneArea this) (location_area this * 1.1)) eqn:Ea;
      [discriminate|].
    apply gtb_le in Ea.
    assert (Hle : totalZoneArea this' <= totalZoneArea this).
    { unfold totalZoneArea, this'. cbn [location_zones set_zones].
      apply filter_area_le. exact Hareas. }
    destruct (JS.gtb (totalZoneArea this') (location_area this' * 1.1))
      eqn:Ea'; [|reflexivity].
    apply gtb_gt in Ea'. change (location_area this') with (location_area this)
      in Ea'. exfalso. lra. }
  split; [|split; [exact Hp | split]].
  - intros zone Hin. unfold this' in Hin. cbn [location_zones set_zones] in Hin.
    apply filter_In in Hin. destruct Hin as [Hin Hk].
    split; [|exact Hin].
    unfold keepZone in Hk. apply negb_true_iff in Hk.
    apply Z.eqb_neq in Hk. exact Hk.
  - intro Hv. unfold save. rewrite Hv, Hp. reflexivity.
  - intro Hv. unfold save. rewrite Hv. reflexivity.
Qed.

Lemma removeZone_is_never_rejected_by_the_hook_witness :
  preSave
    (fst (removeZone (fun _ => true) 4
            {| _id := 1; location_area := 10;
               location_zones :=
                 [{| zone_id := 4; area := 2; name := "south" |};
                  {| zone_id := 5; area := 1; name := "north" |}] |}
            [])) = None.
Proof.
  destruct (removeZone_is_never_rejected_by_the_hook (fun _ => true) 4
              {| _id := 1; location_area := 10;
                 location_zones :=
                   [{| zone_id := 4; area := 2; name := "south" |};
                    {| zone_id := 5; area := 1; name := "north" |}] |}
              []) as [_ [H _]];
    [vm_compute; reflexivity | vm_compute; reflexivity | exact H].
Defined.

End FarmZonesFacts.
